(** * Ingress stage of the Lambda tracing demo: Go and Java [create] handlers

    Shallow embedding of
    - [golang/apps/create/main.go] (handler, startParentSpan, storeObjectInS3,
      causeError, startS3PutSpan),
    - [java/apps/create/.../CreateHandler.java] (handleRequest and helpers),
    - [java/apps/check/.../daos/CustomObject.java],
    together with the parts of the runtime the handlers call: Go's
    [unicode/utf8], the string and struct codec of [encoding/json],
    [math/rand], the span API of OpenTelemetry and the object store.

    Go strings and byte slices are [string] (a sequence of 8-bit [ascii]
    values); integers are [Z]. *)

From Stdlib Require Import ZArith Lia List Bool Ascii String.
From Stdlib Require Import DecimalString DecimalZ DecimalPos.
From stdpp Require Import base gmap strings list.

Local Open Scope string_scope.
Local Open Scope Z_scope.

(* ===================================================================== *)
(** ** Bytes and strings *)
(* ===================================================================== *)

Definition byte_val (c : ascii) : Z := Z.of_N (N_of_ascii c).
Definition byte_of (z : Z) : ascii := ascii_of_N (Z.to_N z).

(** [len(s)] *)
Definition len (s : string) : Z := Z.of_nat (String.length s).

(** [s[i]]; the callers below only index inside [0, len s). *)
Fixpoint at_nat (s : string) (i : nat) : Z :=
  match s, i with
  | EmptyString, _ => 0
  | String c _, O => byte_val c
  | String _ t, S j => at_nat t j
  end.

Definition at_ (s : string) (i : Z) : Z := at_nat s (Z.to_nat i).

Fixpoint str_take (n : nat) (s : string) : string :=
  match n, s with
  | S m, String c t => String c (str_take m t)
  | _, _ => EmptyString
  end.

Fixpoint str_drop (n : nat) (s : string) : string :=
  match n, s with
  | S m, String _ t => str_drop m t
  | _, _ => s
  end.

Definition bytes (l : list Z) : string :=
  fold_right (fun b acc => String (byte_of b) acc) EmptyString l.

(** One-character strings that cannot be written inside a literal. *)
Definition dquote : string := String "034"%char EmptyString.
Definition bslash : string := String "092"%char EmptyString.

(* ===================================================================== *)
(** ** unicode/utf8 *)
(* ===================================================================== *)

Module utf8.

Definition RuneError : Z := 0xFFFD.
Definition RuneSelf : Z := 0x80.
Definition MaxRune : Z := 0x10FFFF.
Definition UTFMax : Z := 4.

Definition surrogateMin : Z := 0xD800.
Definition surrogateMax : Z := 0xDFFF.

Definition t2 : Z := 0xC0.
Definition t3 : Z := 0xE0.
Definition t4 : Z := 0xF0.
Definition tx : Z := 0x80.
Definition maskx : Z := 0x3F.
Definition mask2 : Z := 0x1F.
Definition mask3 : Z := 0x0F.
Definition mask4 : Z := 0x07.

Definition rune1Max : Z := 0x7F.
Definition rune2Max : Z := 0x7FF.
Definition rune3Max : Z := 0xFFFF.

Definition locb : Z := 0x80.
Definition hicb : Z := 0xBF.

(** Entries of the [first] table. *)
Definition xx : Z := 0xF1.
Definition as_ : Z := 0xF0.
Definition s1 : Z := 0x02.
Definition s2 : Z := 0x13.
Definition s3 : Z := 0x03.
Definition s4 : Z := 0x23.
Definition s5 : Z := 0x34.
Definition s6 : Z := 0x04.
Definition s7 : Z := 0x44.

(** [first[b]]: the 256-entry table, written by ranges. *)
Definition first (b : Z) : Z :=
  if b <? 0x80 then as_
  else if b <? 0xC2 then xx
  else if b <? 0xE0 then s1
  else if b =? 0xE0 then s2
  else if b <? 0xED then s3
  else if b =? 0xED then s4
  else if b <? 0xF0 then s3
  else if b =? 0xF0 then s5
  else if b <? 0xF4 then s6
  else if b =? 0xF4 then s7
  else xx.

Record acceptRange := { lo : Z; hi : Z }.

(** [acceptRanges[i]] *)
Definition acceptRanges (i : Z) : acceptRange :=
  if i =? 0 then {| lo := locb; hi := hicb |}
  else if i =? 1 then {| lo := 0xA0; hi := hicb |}
  else if i =? 2 then {| lo := locb; hi := 0x9F |}
  else if i =? 3 then {| lo := 0x90; hi := hicb |}
  else if i =? 4 then {| lo := locb; hi := 0x8F |}
  else {| lo := 0; hi := 0 |}.

(** The rune of a two-, three- and four-byte sequence. *)
Definition rune2 (b0 b1 : Z) : Z :=
  Z.lor (Z.shiftl (Z.land b0 mask2) 6) (Z.land b1 maskx).

Definition rune3 (b0 b1 b2 : Z) : Z :=
  Z.lor (Z.lor (Z.shiftl (Z.land b0 mask3) 12)
               (Z.shiftl (Z.land b1 maskx) 6))
        (Z.land b2 maskx).

Definition rune4 (b0 b1 b2 b3 : Z) : Z :=
  Z.lor (Z.lor (Z.lor (Z.shiftl (Z.land b0 mask4) 18)
                      (Z.shiftl (Z.land b1 maskx) 12))
               (Z.shiftl (Z.land b2 maskx) 6))
        (Z.land b3 maskx).

(** Body of [DecodeRuneInString] over the length [n] of the string and
    its first four bytes. *)
Definition decode_at (n b0 b1 b2 b3 : Z) : Z * Z :=
  if n <? 1 then (RuneError, 0) else
  let x := first b0 in
  if as_ <=? x then ((if x =? xx then RuneError else b0), 1) else
  let sz := Z.land x 7 in
  let accept := acceptRanges (Z.shiftr x 4) in
  if n <? sz then (RuneError, 1) else
  if (b1 <? lo accept) || (hi accept <? b1) then (RuneError, 1) else
  if sz <=? 2 then (rune2 b0 b1, 2) else
  if (b2 <? locb) || (hicb <? b2) then (RuneError, 1) else
  if sz <=? 3 then (rune3 b0 b1 b2, 3) else
  if (b3 <? locb) || (hicb <? b3) then (RuneError, 1) else
  (rune4 b0 b1 b2 b3, 4).

(** [utf8.DecodeRuneInString(s)] (and [utf8.DecodeRune] on a slice):
    the rune at the start of [s] and its width in bytes;
    [(RuneError, 1)] for an invalid encoding. *)
Definition DecodeRuneInString (s : string) : Z * Z :=
  decode_at (len s) (at_ s 0) (at_ s 1) (at_ s 2) (at_ s 3).

(** [utf8.AppendRune(nil, r)] / the bytes written by [utf8.EncodeRune]. *)
Definition EncodeRune (r : Z) : string :=
  if (0 <=? r) && (r <=? rune1Max) then bytes [r]
  else if (0 <=? r) && (r <=? rune2Max) then
    bytes [Z.lor t2 (Z.shiftr r 6); Z.lor tx (Z.land r maskx)]
  else
    let r' :=
      if (r <? 0) || (MaxRune <? r)
         || ((surrogateMin <=? r) && (r <=? surrogateMax))
      then RuneError else r in
    if r' <=? rune3Max then
      bytes [Z.lor t3 (Z.shiftr r' 12);
             Z.lor tx (Z.land (Z.shiftr r' 6) maskx);
             Z.lor tx (Z.land r' maskx)]
    else
      bytes [Z.lor t4 (Z.shiftr r' 18);
             Z.lor tx (Z.land (Z.shiftr r' 12) maskx);
             Z.lor tx (Z.land (Z.shiftr r' 6) maskx);
             Z.lor tx (Z.land r' maskx)].

(** [utf8.ValidString(s)], by the number of bytes still to read. *)
Fixpoint valid_fuel (fuel : nat) (s : string) : bool :=
  match fuel with
  | O => match s with EmptyString => true | _ => false end
  | S f =>
      match s with
      | EmptyString => true
      | String c t =>
          if byte_val c <? RuneSelf then valid_fuel f t
          else
            let '(r, size) := DecodeRuneInString s in
            if (r =? RuneError) && (size =? 1) then false
            else valid_fuel f (str_drop (Z.to_nat size) s)
      end
  end.

Definition ValidString (s : string) : bool :=
  valid_fuel (String.length s) s.

End utf8.

(* ===================================================================== *)
(** ** The domain record *)
(* ===================================================================== *)

(** [type CustomObject struct] of main.go, with its JSON field names
    [item], [isUpdated], [isChecked]. *)
Record CustomObject := {
  Item : string;
  IsUpdated : bool;
  IsChecked : bool
}.

(* ===================================================================== *)
(** ** encoding/json on [CustomObject] *)
(* ===================================================================== *)

Module json.

Inductive error :=
| UnsupportedTypeError (type : string)
| SyntaxError (msg : string)
| UnmarshalTypeError (field : string).

Definition ch (c : ascii) : Z := byte_val c.

(** [const hex = "0123456789abcdef"] and [hex[i]] as a string. *)
Definition hex : string := "0123456789abcdef".
Definition hex_at (i : Z) : string := bytes [at_ hex i].

(** [htmlSafeSet[b]]: the ASCII bytes written to a JSON string as they
    are when HTML escaping is on (the default of [Marshal]). *)
Definition htmlSafeSet (b : Z) : bool :=
  (0x20 <=? b) && (b <? 0x80)
  && negb (b =? ch "034") && negb (b =? ch "&") && negb (b =? ch "<")
  && negb (b =? ch ">") && negb (b =? ch "\").

(** The escape written for an ASCII byte outside [htmlSafeSet]: the
    [switch] of [appendString] (releases from 1.22 on also abbreviate 0x08
    and 0x0C; the decoder below reads both forms). *)
Definition escape (b : Z) : string :=
  if (b =? ch "\") || (b =? ch "034") then bslash ++ bytes [b]
  else if b =? 0x0A then bslash ++ "n"
  else if b =? 0x0D then bslash ++ "r"
  else if b =? 0x09 then bslash ++ "t"
  else bslash ++ "u00" ++ hex_at (Z.shiftr b 4) ++ hex_at (Z.land b 0xF).

(** The loop of [appendString(dst, src, escapeHTML = true)] (Go 1.21):
    the bytes written between the two quotes.  The library batches
    unescaped runs through a [start] index; here every iteration writes
    its bytes. *)
Fixpoint appendString_loop (fuel : nat) (src : string) : string :=
  match fuel with
  | O => EmptyString
  | S f =>
      match src with
      | EmptyString => EmptyString
      | String c t =>
          let b := byte_val c in
          if b <? utf8.RuneSelf then
            if htmlSafeSet b then String c (appendString_loop f t)
            else escape b ++ appendString_loop f t
          else
            let n := Z.min (len src) utf8.UTFMax in
            let '(r, size) :=
              utf8.DecodeRuneInString (str_take (Z.to_nat n) src) in
            if (r =? utf8.RuneError) && (size =? 1) then
              bslash ++ "ufffd" ++ appendString_loop f t
            else if (r =? 0x2028) || (r =? 0x2029) then
              bslash ++ "u202" ++ hex_at (Z.land r 0xF)
                ++ appendString_loop f (str_drop (Z.to_nat size) src)
            else
              str_take (Z.to_nat size) src
                ++ appendString_loop f (str_drop (Z.to_nat size) src)
      end
  end.

Definition appendString (src : string) : string :=
  dquote ++ appendString_loop (String.length src) src ++ dquote.

Definition appendBool (b : bool) : string :=
  if b then "true" else "false".

(** The struct encoder for [CustomObject]: fields in declaration order
    under their tag names. *)
Definition encode (v : CustomObject) : string :=
  "{" ++ dquote ++ "item" ++ dquote ++ ":" ++ appendString (Item v)
  ++ "," ++ dquote ++ "isUpdated" ++ dquote ++ ":" ++ appendBool (IsUpdated v)
  ++ "," ++ dquote ++ "isChecked" ++ dquote ++ ":" ++ appendBool (IsChecked v)
  ++ "}".

(** [json.Marshal(v)] for a [*CustomObject]: no field of the struct can
    make the encoder fail. *)
Definition Marshal (v : CustomObject) : string * option error :=
  (encode v, None).

(* ------------------------------------------------------------------- *)
(** *** Decoding *)

Definition hexval (b : Z) : option Z :=
  if (ch "0" <=? b) && (b <=? ch "9") then Some (b - ch "0")
  else if (ch "a" <=? b) && (b <=? ch "f") then Some (b - ch "a" + 10)
  else if (ch "A" <=? b) && (b <=? ch "F") then Some (b - ch "A" + 10)
  else None.

(** [getu4(s)]: the rune of a leading [\uXXXX], or [-1]; the match is
    the test [len(s) < 6]. *)
Definition getu4 (s : string) : Z :=
  match s with
  | String c0 (String c1 (String h1 (String h2 (String h3 (String h4 _))))) =>
      if negb (byte_val c0 =? ch "\") || negb (byte_val c1 =? ch "u")
      then -1
      else
        match hexval (byte_val h1), hexval (byte_val h2),
              hexval (byte_val h3), hexval (byte_val h4) with
        | Some a, Some b, Some c, Some d => ((a * 16 + b) * 16 + c) * 16 + d
        | _, _, _, _ => -1
        end
  | _ => -1
  end.

(** [utf16.IsSurrogate] and [utf16.DecodeRune]. *)
Definition IsSurrogate (r : Z) : bool := (0xD800 <=? r) && (r <? 0xE000).

Definition utf16_DecodeRune (r1 r2 : Z) : Z :=
  if (0xD800 <=? r1) && (r1 <? 0xDC00) && (0xDC00 <=? r2) && (r2 <? 0xE000)
  then Z.lor (Z.shiftl (r1 - 0xD800) 10) (r2 - 0xDC00) + 0x10000
  else utf8.RuneError.

Definition prepend (p : string) (r : option (string * string))
  : option (string * string) :=
  match r with
  | Some (v, rest) => Some (p ++ v, rest)
  | None => None
  end.

(** A string literal after its opening quote: the scanner's checks and
    [unquoteBytes] in one pass.  Returns the decoded bytes and the input
    after the closing quote. *)
Fixpoint unquote_loop (fuel : nat) (s : string) : option (string * string) :=
  match fuel with
  | O => None
  | S f =>
      match s with
      | EmptyString => None
      | String c t =>
          let b := byte_val c in
          if b =? ch "\" then
            match t with
            | EmptyString => None
            | String c' t' =>
                let e := byte_val c' in
                if (e =? ch "034") || (e =? ch "\") || (e =? ch "/") then
                  prepend (bytes [e]) (unquote_loop f t')
                else if e =? ch "b" then
                  prepend (bytes [0x08]) (unquote_loop f t')
                else if e =? ch "f" then
                  prepend (bytes [0x0C]) (unquote_loop f t')
                else if e =? ch "n" then
                  prepend (bytes [0x0A]) (unquote_loop f t')
                else if e =? ch "r" then
                  prepend (bytes [0x0D]) (unquote_loop f t')
                else if e =? ch "t" then
                  prepend (bytes [0x09]) (unquote_loop f t')
                else if e =? ch "u" then
                  let rr := getu4 s in
                  if rr <? 0 then None
                  else if IsSurrogate rr then
                    let dec := utf16_DecodeRune rr (getu4 (str_drop 6 s)) in
                    if negb (dec =? utf8.RuneError) then
                      prepend (utf8.EncodeRune dec)
                              (unquote_loop f (str_drop 12 s))
                    else
                      prepend (utf8.EncodeRune utf8.RuneError)
                              (unquote_loop f (str_drop 6 s))
                  else
                    prepend (utf8.EncodeRune rr)
                            (unquote_loop f (str_drop 6 s))
                else None
            end
          else if b =? ch "034" then Some (EmptyString, t)
          else if b <? 0x20 then None
          else if b <? utf8.RuneSelf then
            prepend (String c EmptyString) (unquote_loop f t)
          else
            let '(rr, size) := utf8.DecodeRuneInString s in
            prepend (utf8.EncodeRune rr)
                    (unquote_loop f (str_drop (Z.to_nat size) s))
      end
  end.

Definition isSpace (b : Z) : bool :=
  (b =? 0x20) || (b =? 0x09) || (b =? 0x0D) || (b =? 0x0A).

Fixpoint skip_space (s : string) : string :=
  match s with
  | String c t => if isSpace (byte_val c) then skip_space t else s
  | EmptyString => s
  end.

(** [strings.HasPrefix] with the rest of the input. *)
Fixpoint strip_prefix (p s : string) : option string :=
  match p, s with
  | EmptyString, _ => Some s
  | String a p', String b s' =>
      if Ascii.eqb a b then strip_prefix p' s' else None
  | String _ _, EmptyString => None
  end.

(** The values a member of the object may carry in this model: strings
    and the three literals.  Numbers, arrays and nested objects (also at
    the top level) are outside the model and reported as an error; they
    never occur in an encoded [CustomObject]. *)
Inductive value :=
| VString (s : string)
| VBool (b : bool)
| VNull.

Definition parse_value (s : string) : option (value * string) :=
  match s with
  | EmptyString => None
  | String c t =>
      let b := byte_val c in
      if b =? ch "034" then
        match unquote_loop (String.length s) t with
        | Some (v, rest) => Some (VString v, rest)
        | None => None
        end
      else if b =? ch "t" then
        match strip_prefix "true" s with
        | Some rest => Some (VBool true, rest) | None => None end
      else if b =? ch "f" then
        match strip_prefix "false" s with
        | Some rest => Some (VBool false, rest) | None => None end
      else if b =? ch "n" then
        match strip_prefix "null" s with
        | Some rest => Some (VNull, rest) | None => None end
      else None
  end.

(** ASCII case folding for the fallback match of a key against a field
    name. *)
Definition lower (c : ascii) : ascii :=
  let b := byte_val c in
  if (ch "A" <=? b) && (b <=? ch "Z") then byte_of (b + 32) else c.

Fixpoint fold (s : string) : string :=
  match s with
  | EmptyString => EmptyString
  | String c t => String (lower c) (fold t)
  end.

Definition key_is (key name : string) : bool :=
  String.eqb key name || String.eqb (fold key) (fold name).

(** Storing one decoded member into the struct: [null] leaves a field
    as it is, a value of the wrong kind is an [UnmarshalTypeError], an
    unknown key is skipped. *)
Definition set_field (key : string) (x : value) (v : CustomObject)
  : CustomObject + error :=
  if key_is key "item" then
    match x with
    | VString s =>
        inl {| Item := s; IsUpdated := IsUpdated v; IsChecked := IsChecked v |}
    | VNull => inl v
    | VBool _ => inr (UnmarshalTypeError "item")
    end
  else if key_is key "isUpdated" then
    match x with
    | VBool b =>
        inl {| Item := Item v; IsUpdated := b; IsChecked := IsChecked v |}
    | VNull => inl v
    | VString _ => inr (UnmarshalTypeError "isUpdated")
    end
  else if key_is key "isChecked" then
    match x with
    | VBool b =>
        inl {| Item := Item v; IsUpdated := IsUpdated v; IsChecked := b |}
    | VNull => inl v
    | VString _ => inr (UnmarshalTypeError "isChecked")
    end
  else inl v.

Definition syntax : CustomObject + error :=
  inr (SyntaxError "invalid character").

(** The members of an object, from the first key on; [fuel] bounds the
    number of members. *)
Fixpoint members (fuel : nat) (s : string) (v : CustomObject)
  : CustomObject + error :=
  match fuel with
  | O => syntax
  | S f =>
      match strip_prefix dquote s with
      | None => syntax
      | Some s1 =>
          match unquote_loop (String.length s1) s1 with
          | None => syntax
          | Some (key, s2) =>
              match strip_prefix ":" (skip_space s2) with
              | None => syntax
              | Some s3 =>
                  match parse_value (skip_space s3) with
                  | None => syntax
                  | Some (x, s4) =>
                      match set_field key x v with
                      | inr e => inr e
                      | inl v' =>
                          let s5 := skip_space s4 in
                          match strip_prefix "," s5 with
                          | Some s6 => members f (skip_space s6) v'
                          | None =>
                              match strip_prefix "}" s5 with
                              | Some s6 =>
                                  match skip_space s6 with
                                  | EmptyString => inl v'
                                  | _ => syntax
                                  end
                              | None => syntax
                              end
                          end
                      end
                  end
              end
          end
      end
  end.

(** [json.Unmarshal(data, &v)] for [v : CustomObject]: the fields named
    in [data] are overwritten, the others keep their value. *)
Definition Unmarshal (data : string) (v : CustomObject)
  : CustomObject + error :=
  match strip_prefix "{" (skip_space data) with
  | None =>
      match strip_prefix "null" (skip_space data) with
      | Some rest =>
          match skip_space rest with EmptyString => inl v | _ => syntax end
      | None => syntax
      end
  | Some s1 =>
      let s2 := skip_space s1 in
      match strip_prefix "}" s2 with
      | Some s3 =>
          match skip_space s3 with EmptyString => inl v | _ => syntax end
      | None => members (String.length s2) s2 v
      end
  end.

End json.

(* ===================================================================== *)
(** ** State passing *)
(* ===================================================================== *)

Definition State (W A : Type) : Type := W -> A * W.

Definition ret {W A} (a : A) : State W A := fun w => (a, w).

Definition bind {W A B} (m : State W A) (k : A -> State W B) : State W B :=
  fun w => let '(a, w') := m w in k a w'.

Notation "'let*' x ':=' c 'in' k" := (bind c (fun x => k))
  (at level 10, x pattern, c at level 100, k at level 200,
   only parsing).

(* ===================================================================== *)
(** ** OpenTelemetry: attributes and spans *)
(* ===================================================================== *)

Module attribute.

Inductive Value :=
| STRING (s : string)
| BOOL (b : bool)
| INT64 (i : Z).

Definition KeyValue : Type := string * Value.

Definition String_ (k v : string) : KeyValue := (k, STRING v).
Definition Bool_ (k : string) (v : bool) : KeyValue := (k, BOOL v).
Definition Int_ (k : string) (v : Z) : KeyValue := (k, INT64 v).

End attribute.

(** The constants and constructors of [semconv/v1.17.0] used by main.go. *)
Module semconv.
Import attribute.

Definition FaaSTriggerHTTP : KeyValue := String_ "faas.trigger" "http".
Definition NetTransportTCP : KeyValue := String_ "net.transport" "ip_tcp".
Definition HTTPMethod (v : string) : KeyValue := String_ "http.method" v.
Definition HTTPFlavorKey : string := "http.flavor".
Definition HTTPRoute (v : string) : KeyValue := String_ "http.route" v.
Definition HTTPTarget (v : string) : KeyValue := String_ "http.target" v.
Definition HTTPScheme (v : string) : KeyValue := String_ "http.scheme" v.
Definition HTTPUserAgent (v : string) : KeyValue :=
  String_ "http.user_agent" v.
Definition NetHostName (v : string) : KeyValue := String_ "net.host.name" v.
Definition HTTPStatusCode (v : Z) : KeyValue := Int_ "http.status_code" v.
Definition OtelStatusCodeError : KeyValue :=
  String_ "otel.status_code" "ERROR".
Definition OtelStatusDescription (v : string) : KeyValue :=
  String_ "otel.status_description" v.

End semconv.

Module trace.
Import attribute.

Inductive SpanKind :=
| SpanKindInternal
| SpanKindServer
| SpanKindClient
| SpanKindProducer
| SpanKindConsumer.

(** [codes.Code]: the status a span carries through [SetStatus]. *)
Inductive Code := Unset | Error | Ok.

Record Event := {
  event_name : string;
  event_attributes : list KeyValue
}.

(** What the SDK keeps for a span. *)
Record SpanData := {
  tracer : string;
  name : string;
  kind : SpanKind;
  parent : option nat;
  attributes : list KeyValue;
  events : list Event;
  status : Code;
  ended : bool
}.

(** [defaultTracerName] of the SDK, and the name a tracer gets from
    [TracerProvider.Tracer(name)]: an empty name is replaced by the
    default one. *)
Definition defaultTracerName : string := "go.opentelemetry.io/otel/sdk/tracer".

Definition tracer_name (name : string) : string :=
  match name with
  | EmptyString => defaultTracerName
  | _ => name
  end.

(** A [trace.Span] value is a reference to the span's data. *)
Definition Span : Type := nat.

(** [context.Context], as far as tracing reads it: the current span. *)
Definition Context : Type := option Span.

Definition set_attributes (kvs : list KeyValue) (d : SpanData) : SpanData :=
  if ended d then d else
  {| tracer := tracer d; name := name d; kind := kind d;
     parent := parent d; attributes := attributes d ++ kvs;
     events := events d; status := status d; ended := ended d |}.

Definition add_event (e : Event) (d : SpanData) : SpanData :=
  if ended d then d else
  {| tracer := tracer d; name := name d; kind := kind d;
     parent := parent d; attributes := attributes d;
     events := events d ++ [e]; status := status d; ended := ended d |}.

Definition end_span (d : SpanData) : SpanData :=
  {| tracer := tracer d; name := name d; kind := kind d;
     parent := parent d; attributes := attributes d;
     events := events d; status := status d; ended := true |}.

End trace.

(* ===================================================================== *)
(** ** The object store behind the uploader *)
(* ===================================================================== *)

Module s3.

(** [s3manager.UploadInput] / [PutObjectRequest]: the three fields the
    handlers fill.  [Bucket] and [Key] are pointers ([aws.String]) in Go
    and nullable in Java. *)
Record UploadInput := {
  Bucket : option string;
  Key : option string;
  Body : string
}.

(** The collaborator: [respond] is its answer to a request ([None]
    accepted, [Some text] refused with that error text: no such bucket,
    access denied, network, throttling ...); [objects] is what it has
    stored, by bucket and key. *)
Record Store := {
  respond : UploadInput -> option string;
  objects : gmap (string * string) string
}.

Definition put (i : UploadInput) (s : Store) : option string * Store :=
  match respond s i with
  | Some e => (Some e, s)
  | None =>
      match Bucket i, Key i with
      | Some b, Some k =>
          (None, {| respond := respond s;
                    objects := <[(b, k) := Body i]> (objects s) |})
      | _, _ => (None, s)
      end
  end.

End s3.

(* ===================================================================== *)
(** ** math/rand, strconv *)
(* ===================================================================== *)

Module rand.

(** A [*rand.Rand]: the values its source delivers (those that pass the
    rejection test of [Int31n]) and how many were consumed. *)
Record Rand := {
  source : nat -> Z;
  consumed : nat
}.

(** The largest source value [Int31n(n)] accepts; larger ones are drawn
    again, so that every residue is equally frequent. *)
Definition Int31n_max (n : Z) : Z := (2 ^ 31 - 1) - (2 ^ 31) mod n.

(** [r.Intn(n)] for [0 < n < 2^31], [n] not a power of two: the next
    source value modulo [n]. *)
Definition Intn (n : Z) (r : Rand) : Z * Rand :=
  (source r (consumed r) mod n,
   {| source := source r; consumed := S (consumed r) |}).

End rand.

Module strconv.

(** [strconv.FormatInt(i, 10)] *)
Definition FormatInt (i : Z) : string := NilZero.string_of_int (Z.to_int i).

(** [strconv.ParseInt(s, 10, 64)] without the range check. *)
Definition ParseInt (s : string) : option Z :=
  match NilZero.int_of_string s with
  | Some d => Some (Z.of_int d)
  | None => None
  end.

End strconv.

(** What a handler asks of the outside, in the order it asks. *)
Inductive Call :=
| CallIntn (n : Z) (drawn : Z)
| CallNow (unixMilli : Z)
| CallUpload (input : s3.UploadInput) (err : option string).

(** The write requests among a sequence of calls, with their outcome. *)
Definition uploads (cs : list Call) : list (s3.UploadInput * option string) :=
  omap (fun c => match c with CallUpload i e => Some (i, e) | _ => None end) cs.

(* ===================================================================== *)
(** ** golang/apps/create/main.go *)
(* ===================================================================== *)

Module create.
Import attribute.

Definition CUSTOM_OTEL_SPAN_EVENT_NAME : string := "LambdaCreateEvent".

(** The package variables, the wall clock, the store, the spans the
    tracer provider holds, standard output and the call log. *)
Record World := {
  randomizer : rand.Rand;
  OTEL_SERVICE_NAME : string;
  INPUT_S3_BUCKET_NAME : string;
  uploader : s3.Store;
  clock : Z;
  spans : list trace.SpanData;
  stdout : list string;
  calls : list Call
}.

Definition M : Type -> Type := State World.

Definition with_randomizer (r : rand.Rand) (w : World) : World :=
  {| randomizer := r; OTEL_SERVICE_NAME := OTEL_SERVICE_NAME w;
     INPUT_S3_BUCKET_NAME := INPUT_S3_BUCKET_NAME w;
     uploader := uploader w; clock := clock w; spans := spans w;
     stdout := stdout w; calls := calls w |}.

Definition with_uploader (u : s3.Store) (w : World) : World :=
  {| randomizer := randomizer w; OTEL_SERVICE_NAME := OTEL_SERVICE_NAME w;
     INPUT_S3_BUCKET_NAME := INPUT_S3_BUCKET_NAME w;
     uploader := u; clock := clock w; spans := spans w;
     stdout := stdout w; calls := calls w |}.

Definition with_spans (s : list trace.SpanData) (w : World) : World :=
  {| randomizer := randomizer w; OTEL_SERVICE_NAME := OTEL_SERVICE_NAME w;
     INPUT_S3_BUCKET_NAME := INPUT_S3_BUCKET_NAME w;
     uploader := uploader w; clock := clock w; spans := s;
     stdout := stdout w; calls := calls w |}.

Definition with_stdout (o : list string) (w : World) : World :=
  {| randomizer := randomizer w; OTEL_SERVICE_NAME := OTEL_SERVICE_NAME w;
     INPUT_S3_BUCKET_NAME := INPUT_S3_BUCKET_NAME w;
     uploader := uploader w; clock := clock w; spans := spans w;
     stdout := o; calls := calls w |}.

Definition with_calls (c : list Call) (w : World) : World :=
  {| randomizer := randomizer w; OTEL_SERVICE_NAME := OTEL_SERVICE_NAME w;
     INPUT_S3_BUCKET_NAME := INPUT_S3_BUCKET_NAME w;
     uploader := uploader w; clock := clock w; spans := spans w;
     stdout := stdout w; calls := c |}.

Definition log (c : Call) (w : World) : World :=
  with_calls (calls w ++ [c]) w.

(** *** Runtime operations *)

(** [fmt.Println(s)] *)
Definition Println (s : string) : M unit :=
  fun w => (tt, with_stdout (stdout w ++ [s]) w).

(** [randomizer.Intn(n)] *)
Definition randomizer_Intn (n : Z) : M Z :=
  fun w =>
    let '(d, r) := rand.Intn n (randomizer w) in
    (d, log (CallIntn n d) (with_randomizer r w)).

(** [time.Now().UTC().UnixMilli()] *)
Definition time_Now_UnixMilli : M Z :=
  fun w => (clock w, log (CallNow (clock w)) w).

(** [uploader.UploadWithContext(ctx, input)]; the output value is
    dropped by the caller, the error is its text. *)
Definition UploadWithContext (ctx : trace.Context) (input : s3.UploadInput)
  : M (option string) :=
  fun w =>
    let '(err, u) := s3.put input (uploader w) in
    (err, log (CallUpload input err) (with_uploader u w)).

(** [Tracer(tracerName).Start(ctx, name, WithSpanKind(kind),
    WithAttributes(attrs...))]: the tracer asked for under [tracerName]
    bears the name [trace.tracer_name tracerName]. *)
Definition Start (tracerName : string) (ctx : trace.Context)
    (spanName : string) (spanKind : trace.SpanKind) (attrs : list KeyValue)
  : M (trace.Context * trace.Span) :=
  fun w =>
    let id := length (spans w) in
    let d := {| trace.tracer := trace.tracer_name tracerName;
              trace.name := spanName;
                trace.kind := spanKind; trace.parent := ctx;
                trace.attributes := attrs; trace.events := [];
                trace.status := trace.Unset; trace.ended := false |} in
    ((Some id, id), with_spans (spans w ++ [d]) w).

Definition update_span (sp : trace.Span)
    (f : trace.SpanData -> trace.SpanData) : M unit :=
  fun w =>
    match spans w !! sp with
    | Some d => (tt, with_spans (<[sp := f d]> (spans w)) w)
    | None => (tt, w)
    end.

(** [span.SetAttributes(kvs...)] *)
Definition SetAttributes (sp : trace.Span) (kvs : list KeyValue) : M unit :=
  update_span sp (trace.set_attributes kvs).

(** [span.AddEvent(name, trace.WithAttributes(attrs...))] *)
Definition AddEvent (sp : trace.Span) (evName : string)
    (attrs : list KeyValue) : M unit :=
  update_span sp
    (trace.add_event {| trace.event_name := evName;
                        trace.event_attributes := attrs |}).

(** [span.End()] *)
Definition End_ (sp : trace.Span) : M unit :=
  update_span sp trace.end_span.

(** *** The request and the response *)

Record APIGatewayProxyRequestContext := { Protocol : string }.

(** [events.APIGatewayProxyRequest], the fields main.go reads. *)
Record APIGatewayProxyRequest := {
  Resource : string;
  HTTPMethod : string;
  Headers : gmap string string;
  RequestContext : APIGatewayProxyRequestContext
}.

(** [events.APIGatewayProxyResponse], the fields main.go sets. *)
Record APIGatewayProxyResponse := {
  StatusCode : Z;
  Body : string
}.

(** [m[k]] on a [map[string]string]: the zero value for a missing key. *)
Definition index (m : gmap string string) (k : string) : string :=
  default EmptyString (m !! k).

(** *** The functions of main.go *)

Definition startParentSpan (req : APIGatewayProxyRequest)
  : M (trace.Context * trace.Span) :=
  fun w =>
    let tracer := OTEL_SERVICE_NAME w in
    let ctx : trace.Context := None in
    Start tracer ctx "main.handler" trace.SpanKindServer
      [ semconv.FaaSTriggerHTTP;
        semconv.NetTransportTCP;
        semconv.HTTPMethod (HTTPMethod req);
        String_ semconv.HTTPFlavorKey (Protocol (RequestContext req));
        semconv.HTTPRoute (Resource req);
        semconv.HTTPTarget (Resource req);
        semconv.HTTPScheme (index (Headers req) "X-Forwarded-Proto");
        semconv.HTTPUserAgent (index (Headers req) "User-Agent");
        semconv.NetHostName (index (Headers req) "Host") ] w.

Definition startS3PutSpan (ctx : trace.Context) (parentSpan : trace.Span)
  : M (trace.Context * trace.Span) :=
  fun w =>
    Start (OTEL_SERVICE_NAME w) ctx "S3.PutObject" trace.SpanKindClient
      [ semconv.NetTransportTCP ] w.

Definition causeError : M bool :=
  let* d := randomizer_Intn 15 in
  ret (d =? 1).

Definition storeObjectInS3 (ctx : trace.Context) (parentSpan : trace.Span)
    (jsonBody : string) : M (option string) :=
  let* _ := Println "Storing custom object into S3..." in
  let* (ctx, s3PutSpan) := startS3PutSpan ctx parentSpan in
  let* result :=
    (let* bucketName := (fun w => (INPUT_S3_BUCKET_NAME w, w)) in
     let* fire := causeError in
     let bucketName := if fire then "wrong-bucket-name" else bucketName in
     let* now := time_Now_UnixMilli in
     let* err :=
       UploadWithContext ctx
         {| s3.Bucket := Some bucketName;
            s3.Key := Some (strconv.FormatInt now);
            s3.Body := jsonBody |} in
     match err with
     | Some e =>
         let msg := "Storing custom object into S3 is failed." in
         let* _ :=
           SetAttributes s3PutSpan
             [ semconv.OtelStatusCodeError;
               semconv.OtelStatusDescription (msg ++ ": " ++ e) ] in
         let* _ := Println msg in
         ret (Some e)
     | None =>
         let* _ := Println "Storing custom object into S3 is succeeded." in
         ret None
     end) in
  let* _ := End_ s3PutSpan in
  ret result.

Section Handler.

(** [json.Marshal] as the handler sees it: bytes and an error. *)
Variable Marshal : CustomObject -> string * option json.error.

Definition handler_with (req : APIGatewayProxyRequest)
  : M (APIGatewayProxyResponse * option string) :=
  let* (ctx, parentSpan) := startParentSpan req in
  let* result :=
    (let body := {| Item := "test"; IsUpdated := false;
                    IsChecked := false |} in
     let '(jsonBody, err) := Marshal body in
     match err with
     | Some _ =>
         let* _ := Println "Converting body into JSON has failed." in
         ret ({| StatusCode := 500; Body := "Failed" |}, None)
     | None =>
         let* err := storeObjectInS3 ctx parentSpan jsonBody in
         match err with
         | Some _ =>
             let* _ :=
               SetAttributes parentSpan [ semconv.HTTPStatusCode 500 ] in
             let* bucket := (fun w => (INPUT_S3_BUCKET_NAME w, w)) in
             let* _ :=
               AddEvent parentSpan CUSTOM_OTEL_SPAN_EVENT_NAME
                 [ Bool_ "is.successful" false;
                   String_ "bucket.id" bucket ] in
             ret ({| StatusCode := 500; Body := "Failed" |}, None)
         | None =>
             let* _ :=
               SetAttributes parentSpan [ semconv.HTTPStatusCode 200 ] in
             let* bucket := (fun w => (INPUT_S3_BUCKET_NAME w, w)) in
             let* _ :=
               AddEvent parentSpan CUSTOM_OTEL_SPAN_EVENT_NAME
                 [ Bool_ "is.successful" true;
                   String_ "bucket.id" bucket ] in
             ret ({| StatusCode := 200; Body := jsonBody |}, None)
         end
     end) in
  let* _ := End_ parentSpan in
  ret result.

End Handler.

(** [handler], as deployed: with [encoding/json]. *)
Definition handler : APIGatewayProxyRequest
    -> M (APIGatewayProxyResponse * option string) :=
  handler_with json.Marshal.

End create.

(* ===================================================================== *)
(** ** java/apps/check/.../daos/CustomObject.java *)
(* ===================================================================== *)

Module daos.

(** The three private fields of the class. *)
Record CustomObject := {
  item : string;
  isUpdated : bool;
  isChecked : bool
}.

(** [new CustomObject(item, isUpdated, isChecked)] *)
Definition new (item_ : string) (isUpdated_ isChecked_ : bool)
  : CustomObject :=
  {| item := item_; isUpdated := isUpdated_; isChecked := isChecked_ |}.

Definition getItem (this : CustomObject) : string := item this.

Definition getIsUpdated (this : CustomObject) : bool := isUpdated this.

Definition setIsChecked (isChecked_ : bool) (this : CustomObject)
  : CustomObject :=
  {| item := item this; isUpdated := isUpdated this;
     isChecked := isChecked_ |}.

Definition getIsChecked (this : CustomObject) : bool := isChecked this.

End daos.

(** The Go struct and the Java class carry the same three fields. *)
Definition to_daos (o : CustomObject) : daos.CustomObject :=
  daos.new (Item o) (IsUpdated o) (IsChecked o).

(* ===================================================================== *)
(** ** Gson on [CustomObject] *)
(* ===================================================================== *)

Module gson.

(** [HTML_SAFE_REPLACEMENT_CHARS[c]] of [JsonWriter], the table a
    [new Gson()] writes strings with.  A Java [char] is a byte here,
    which is exact for ASCII text. *)
Definition replacement (b : Z) : option string :=
  if b =? json.ch "034" then Some (bslash ++ dquote)
  else if b =? json.ch "\" then Some (bslash ++ bslash)
  else if b =? 0x09 then Some (bslash ++ "t")
  else if b =? 0x08 then Some (bslash ++ "b")
  else if b =? 0x0A then Some (bslash ++ "n")
  else if b =? 0x0D then Some (bslash ++ "r")
  else if b =? 0x0C then Some (bslash ++ "f")
  else if (b <? 0x20) || (b =? json.ch "<") || (b =? json.ch ">")
          || (b =? json.ch "&") || (b =? json.ch "=") || (b =? json.ch "'")
  then Some (bslash ++ "u00" ++ json.hex_at (Z.shiftr b 4)
                    ++ json.hex_at (Z.land b 0xF))
  else None.

Fixpoint string_body (s : string) : string :=
  match s with
  | EmptyString => EmptyString
  | String c t =>
      match replacement (byte_val c) with
      | Some r => r ++ string_body t
      | None => String c (string_body t)
      end
  end.

(** [gson.toJson(customObject)]: the fields in declaration order under
    their Java names, no white space. *)
Definition toJson (o : daos.CustomObject) : string :=
  "{" ++ dquote ++ "item" ++ dquote ++ ":"
      ++ dquote ++ string_body (daos.getItem o) ++ dquote
  ++ "," ++ dquote ++ "isUpdated" ++ dquote ++ ":"
      ++ json.appendBool (daos.getIsUpdated o)
  ++ "," ++ dquote ++ "isChecked" ++ dquote ++ ":"
      ++ json.appendBool (daos.getIsChecked o)
  ++ "}".

End gson.

(* ===================================================================== *)
(** ** java/apps/create/.../CreateHandler.java *)
(* ===================================================================== *)

Module CreateHandler.

(** The static field, the process environment, the clock, the client's
    store and the call log. *)
Record World := {
  environment : gmap string string;
  INPUT_S3_BUCKET_NAME : option string;
  s3Client : s3.Store;
  currentTimeMillis : Z;
  calls : list Call
}.

(** A thrown [Exception], by what the handler reads of it. *)
Record Exception := { getMessage : option string }.

(** A method body: a value or a thrown exception, and the new state. *)
Definition J (A : Type) : Type := State World (A + Exception).

Definition pure {A} (a : A) : J A := ret (inl a).
Definition throw {A} (e : Exception) : J A := ret (inr e).

Definition andThen {A B} (m : J A) (k : A -> J B) : J B :=
  fun w =>
    match m w with
    | (inl a, w') => k a w'
    | (inr e, w') => (inr e, w')
    end.

Definition tryCatch {A} (body : J A) (handle : Exception -> State World A)
  : State World A :=
  fun w =>
    match body w with
    | (inl a, w') => (a, w')
    | (inr e, w') => handle e w'
    end.

(** [APIGatewayProxyResponseEvent], the fields the handler sets. *)
Record APIGatewayProxyResponseEvent := {
  statusCode : Z;
  headers : gmap string string;
  body : option string
}.

(** [APIGatewayProxyRequestEvent] and [Context]: never read. *)
Definition APIGatewayProxyRequestEvent : Type := unit.
Definition Context : Type := unit.

Definition parseEnvVars : J unit :=
  fun w =>
    (inl tt,
     {| environment := environment w;
        INPUT_S3_BUCKET_NAME := environment w !! "INPUT_S3_BUCKET_NAME";
        s3Client := s3Client w;
        currentTimeMillis := currentTimeMillis w;
        calls := calls w |}).

Definition createCustomObject : daos.CustomObject :=
  daos.new "test" false false.

Definition getStringOfCustomObject (customObject : daos.CustomObject)
  : string :=
  gson.toJson customObject.

(** [data.getBytes()] written to a [ByteArrayOutputStream]; writing to
    memory does not throw, so the [catch] of the source is not entered.
    The bytes of ASCII text are its characters. *)
Definition getByteArrayOutputStream (data : string) : J string :=
  pure data.

(** [System.currentTimeMillis()] *)
Definition System_currentTimeMillis : J Z :=
  fun w =>
    (inl (currentTimeMillis w),
     {| environment := environment w;
        INPUT_S3_BUCKET_NAME := INPUT_S3_BUCKET_NAME w;
        s3Client := s3Client w;
        currentTimeMillis := currentTimeMillis w;
        calls := calls w ++ [CallNow (currentTimeMillis w)] |}).

(** [s3Client.putObject(request, body)]: throws when the store refuses. *)
Definition putObject (request : s3.UploadInput) : J unit :=
  fun w =>
    let '(err, s) := s3.put request (s3Client w) in
    let w' :=
      {| environment := environment w;
         INPUT_S3_BUCKET_NAME := INPUT_S3_BUCKET_NAME w;
         s3Client := s;
         currentTimeMillis := currentTimeMillis w;
         calls := calls w ++ [CallUpload request err] |} in
    match err with
    | Some text => (inr {| getMessage := Some text |}, w')
    | None => (inl tt, w')
    end.

Definition storeObjectInS3 (customObjectString : string) : J unit :=
  andThen (getByteArrayOutputStream customObjectString) (fun jsonByteStream =>
  let fis := jsonByteStream in
  andThen (fun w => (inl (INPUT_S3_BUCKET_NAME w), w)) (fun bucket =>
  andThen System_currentTimeMillis (fun now =>
  putObject {| s3.Bucket := bucket;
               s3.Key := Some (strconv.FormatInt now);
               s3.Body := fis |}))).

Definition createResponse (statusCode_ : Z) (body_ : option string)
  : APIGatewayProxyResponseEvent :=
  let responseHeaders : gmap string string :=
    <["Content-Type" := "application/json"]> ∅ in
  {| statusCode := statusCode_; headers := responseHeaders;
     body := body_ |}.

Definition handleRequest (input : APIGatewayProxyRequestEvent)
    (context : Context) : State World APIGatewayProxyResponseEvent :=
  tryCatch
    (andThen parseEnvVars (fun _ =>
     let customObject := createCustomObject in
     let json := getStringOfCustomObject customObject in
     andThen (storeObjectInS3 json) (fun _ =>
     pure (createResponse 200 (Some json)))))
    (fun e => ret (createResponse 500 (getMessage e))).

End CreateHandler.

(* ===================================================================== *)
(** ** The three stages over one record *)
(* ===================================================================== *)

Module pipeline.

Inductive Stage := Ingress | Transform | Verification.

(** A record together with the stages it has passed, latest first. *)
Record Tracked := {
  record : daos.CustomObject;
  passed : list Stage
}.

Inductive PreconditionError := NotUpdated.

(** Ingress: the record both [create] handlers build. *)
Definition ingress : Tracked :=
  {| record := CreateHandler.createCustomObject; passed := [Ingress] |}.

(** Modelled from the spec: the Transform stage, whose handler is not
    part of the sources at hand.  Section 4.2: it reads the object and
    sets [isUpdated = true]; the other fields are written back as read. *)
Definition transform (t : Tracked) : Tracked :=
  {| record := daos.new (daos.getItem (record t)) true
                        (daos.getIsChecked (record t));
     passed := Transform :: passed t |}.

(** Modelled from the spec: the Verification stage, whose handler is not
    part of the sources at hand.  Section 4.3: it asserts
    [isUpdated == true]; if so it sets [isChecked = true], otherwise it
    reports the violated precondition and leaves the record as it is. *)
Definition verification (t : Tracked) : Tracked + PreconditionError :=
  if daos.getIsUpdated (record t) then
    inl {| record := daos.setIsChecked true (record t);
           passed := Verification :: passed t |}
  else inr NotUpdated.

(** One stage acting on a record. *)
Inductive step : Tracked -> Tracked -> Prop :=
| step_transform t : step t (transform t)
| step_verification t t' : verification t = inl t' -> step t t'.

(** The records of the pipeline: those Ingress created, after any number
    of later stages (deliveries may repeat). *)
Inductive reachable : Tracked -> Prop :=
| reach_ingress : reachable ingress
| reach_step t t' : reachable t -> step t t' -> reachable t'.

(** A flag does not go from [true] back to [false]. *)
Definition flag_le (before after : bool) : Prop :=
  before = true -> after = true.

End pipeline.

(* ===================================================================== *)
(** ** What an invocation did *)
(* ===================================================================== *)

(** The write requests issued between two states of the call log. *)
Definition issued (before after : list Call)
  : list (s3.UploadInput * option string) :=
  uploads (drop (length before) after).

Module create_obs.
Import create.

(** The data of the root span as [startParentSpan] creates it. *)
Definition root_started (req : APIGatewayProxyRequest) (w : World)
  : trace.SpanData :=
  {| trace.tracer := trace.tracer_name (OTEL_SERVICE_NAME w);
     trace.name := "main.handler";
     trace.kind := trace.SpanKindServer; trace.parent := None;
     trace.attributes :=
       [ semconv.FaaSTriggerHTTP;
         semconv.NetTransportTCP;
         semconv.HTTPMethod (HTTPMethod req);
         attribute.String_ semconv.HTTPFlavorKey
           (Protocol (RequestContext req));
         semconv.HTTPRoute (Resource req);
         semconv.HTTPTarget (Resource req);
         semconv.HTTPScheme (index (Headers req) "X-Forwarded-Proto");
         semconv.HTTPUserAgent (index (Headers req) "User-Agent");
         semconv.NetHostName (index (Headers req) "Host") ];
     trace.events := []; trace.status := trace.Unset;
     trace.ended := false |}.

(** The number [causeError] draws in state [w]. *)
Definition draw (w : World) : Z := fst (rand.Intn 15 (randomizer w)).

(** The value the source of the generator delivers next in state [w], and
    the state [w] with a source that delivers [v] next. *)
Definition next_source_value (w : World) : Z :=
  rand.source (randomizer w) (rand.consumed (randomizer w)).

Definition with_next_source_value (v : Z) (w : World) : World :=
  with_randomizer
    {| rand.source := fun k =>
         if decide (k = rand.consumed (randomizer w)) then v
         else rand.source (randomizer w) k;
       rand.consumed := rand.consumed (randomizer w) |} w.

(** The request [storeObjectInS3] sends in state [w]. *)
Definition request (jsonBody : string) (w : World) : s3.UploadInput :=
  {| s3.Bucket :=
       Some (if draw w =? 1 then "wrong-bucket-name"
             else INPUT_S3_BUCKET_NAME w);
     s3.Key := Some (strconv.FormatInt (clock w));
     s3.Body := jsonBody |}.

(** The data of the client span as [startS3PutSpan] creates it and as
    [storeObjectInS3] leaves it. *)
Definition child_started (ctx : trace.Context) (w : World)
  : trace.SpanData :=
  {| trace.tracer := trace.tracer_name (OTEL_SERVICE_NAME w);
     trace.name := "S3.PutObject";
     trace.kind := trace.SpanKindClient; trace.parent := ctx;
     trace.attributes := [ semconv.NetTransportTCP ];
     trace.events := []; trace.status := trace.Unset;
     trace.ended := false |}.

Definition child_final (ctx : trace.Context) (w : World)
    (err : option string) : trace.SpanData :=
  trace.end_span
    match err with
    | Some e =>
        trace.set_attributes
          [ semconv.OtelStatusCodeError;
            semconv.OtelStatusDescription
              ("Storing custom object into S3 is failed." ++ ": " ++ e) ]
          (child_started ctx w)
    | None => child_started ctx w
    end.

(** The terminal outcome event of the root span. *)
Definition outcome_event (successful : bool) (w : World) : trace.Event :=
  {| trace.event_name := CUSTOM_OTEL_SPAN_EVENT_NAME;
     trace.event_attributes :=
       [ attribute.Bool_ "is.successful" successful;
         attribute.String_ "bucket.id" (INPUT_S3_BUCKET_NAME w) ] |}.

(** The data of the root span as [handler] leaves it after a write that
    returned [err]. *)
Definition root_final (req : APIGatewayProxyRequest) (w : World)
    (err : option string) : trace.SpanData :=
  trace.end_span
    (trace.add_event
       (outcome_event (bool_decide (err = None)) w)
       (trace.set_attributes
          [ semconv.HTTPStatusCode
              (if bool_decide (err = None) then 200 else 500) ]
          (root_started req w))).

(** The state [storeObjectInS3] leaves, but for the spans. *)
Definition after_store (jsonBody : string) (err : option string)
    (u : s3.Store) (sp : list trace.SpanData) (out : list string)
    (w : World) : World :=
  {| randomizer := snd (rand.Intn 15 (randomizer w));
     OTEL_SERVICE_NAME := OTEL_SERVICE_NAME w;
     INPUT_S3_BUCKET_NAME := INPUT_S3_BUCKET_NAME w;
     uploader := u;
     clock := clock w;
     spans := sp;
     stdout := stdout w ++ out ++
       [ "Storing custom object into S3...";
         match err with
         | Some _ => "Storing custom object into S3 is failed."
         | None => "Storing custom object into S3 is succeeded."
         end ];
     calls := calls w ++
       [ CallIntn 15 (draw w); CallNow (clock w);
         CallUpload (request jsonBody w) err ] |}.

(** The first object every invocation builds. *)
Definition body0 : CustomObject :=
  {| Item := "test"; IsUpdated := false; IsChecked := false |}.

(** The payload of every invocation. *)
Definition payload : string :=
  json.encode body0.

End create_obs.


Module java_obs.
Import CreateHandler.

(** The payload of every invocation. *)
Definition payload : string := gson.toJson createCustomObject.

(** The request [storeObjectInS3] sends in state [w]. *)
Definition request (w : World) : s3.UploadInput :=
  {| s3.Bucket := environment w !! "INPUT_S3_BUCKET_NAME";
     s3.Key := Some (strconv.FormatInt (currentTimeMillis w));
     s3.Body := payload |}.

End java_obs.

(** [sub] occurs in [s]. *)
Definition contains (s sub : string) : Prop :=
  exists pre post, s = pre ++ sub ++ post.

(** The claim that a draw from the fault injector precedes every write of
    a call sequence. *)
Definition consulted_before_every_write (cs : list Call) : Prop :=
  forall pre i e post,
    cs = (pre ++ CallUpload i e :: post)%list ->
    exists n d, In (CallIntn n d) pre.

(** The body of Scenario A. *)
Definition scenario_A_body : string :=
  "{" ++ dquote ++ "item" ++ dquote ++ ":" ++ dquote ++ "test" ++ dquote
  ++ "," ++ dquote ++ "isUpdated" ++ dquote ++ ":false"
  ++ "," ++ dquote ++ "isChecked" ++ dquote ++ ":false}".

(** What one accepted write does to the store: the payload is stored
    under the timestamp key; a key not used before in that bucket makes
    one object more, a key in use has its object replaced and the number
    of objects stays. *)
Definition one_object_stored (before after : s3.Store)
    (b k payload : string) : Prop :=
  s3.objects after = <[(b, k) := payload]> (s3.objects before)
  /\ s3.objects after !! (b, k) = Some payload
  /\ (s3.objects before !! (b, k) = None ->
      size (s3.objects after) = S (size (s3.objects before)))
  /\ (forall old, s3.objects before !! (b, k) = Some old ->
      size (s3.objects after) = size (s3.objects before)).

(* ===================================================================== *)
(** ** Scenarios *)
(* ===================================================================== *)

Module scenario.

(** A store that holds the bucket [otel-input] and nothing else. *)
Definition store : s3.Store :=
  {| s3.respond := fun i =>
       if bool_decide (s3.Bucket i = Some "otel-input") then None
       else Some "NoSuchBucket: The specified bucket does not exist";
     s3.objects := ∅ |}.

(** A store that turns every request away. *)
Definition denying_store : s3.Store :=
  {| s3.respond := fun _ => Some "AccessDenied: Access Denied";
     s3.objects := ∅ |}.

(** A Go process whose generator delivers [v] on every draw. *)
Definition go (v : Z) : create.World :=
  {| create.randomizer := {| rand.source := fun _ => v; rand.consumed := 0 |};
     create.OTEL_SERVICE_NAME := "create";
     create.INPUT_S3_BUCKET_NAME := "otel-input";
     create.uploader := store;
     create.clock := 1700000000123;
     create.spans := [];
     create.stdout := [];
     create.calls := [] |}.

Definition request : create.APIGatewayProxyRequest :=
  {| create.Resource := "/create";
     create.HTTPMethod := "POST";
     create.Headers :=
       <["Host" := "example.org"]> (<["X-Forwarded-Proto" := "https"]> ∅);
     create.RequestContext := {| create.Protocol := "HTTP/1.1" |} |}.

(** A marshaller that fails. *)
Definition failing_Marshal (v : CustomObject) : string * option json.error :=
  (EmptyString, Some (json.UnsupportedTypeError "CustomObject")).

(** Java processes: the bucket configured, the bucket variable missing,
    a store that denies access. *)
Definition java (s : s3.Store) (bucket : option string)
  : CreateHandler.World :=
  {| CreateHandler.environment :=
       match bucket with
       | Some b => <["INPUT_S3_BUCKET_NAME" := b]> ∅
       | None => ∅
       end;
     CreateHandler.INPUT_S3_BUCKET_NAME := None;
     CreateHandler.s3Client := s;
     CreateHandler.currentTimeMillis := 1700000000123;
     CreateHandler.calls := [] |}.

End scenario.

Module roundtrip.

(** A record whose item is not valid UTF-8: the single byte 0xFF. *)
Definition broken : CustomObject :=
  {| Item := bytes [0xFF]; IsUpdated := false; IsChecked := false |}.

(** A record whose item needs every kind of treatment: plain ASCII, a
    quote, a line feed, [<], a two-byte rune, U+2028 and a four-byte rune. *)
Definition mixed : CustomObject :=
  {| Item := bytes [0x41; 0x22; 0x0A; 0x3C; 0xC3; 0xA9; 0xE2; 0x80; 0xA8;
                    0xF0; 0x9F; 0x98; 0x80];
     IsUpdated := true; IsChecked := false |}.

(** The zero value of the struct. *)
Definition zero : CustomObject :=
  {| Item := EmptyString; IsUpdated := false; IsChecked := false |}.

End roundtrip.

(* ===================================================================== *)
(** ** main.go: start of the process and successive invocations *)
(* ===================================================================== *)

Module create_run.
Import create.

Definition with_clock (t : Z) (w : World) : World :=
  {| randomizer := randomizer w; OTEL_SERVICE_NAME := OTEL_SERVICE_NAME w;
     INPUT_S3_BUCKET_NAME := INPUT_S3_BUCKET_NAME w;
     uploader := uploader w; clock := t; spans := spans w;
     stdout := stdout w; calls := calls w |}.



(** [lambda.Start(handler)]: the invocations of one process, one after
    the other on the same package variables; each event comes with the
    reading of the wall clock at that invocation. *)
Fixpoint serve (events : list (Z * APIGatewayProxyRequest))
  : M (list (APIGatewayProxyResponse * option string)) :=
  match events with
  | [] => ret []
  | (now, req) :: rest =>
      let* _ := (fun w => (tt, with_clock now w)) in
      let* r := handler req in
      let* rs := serve rest in
      ret (r :: rs)
  end.


End create_run.

(** The numbers drawn among a sequence of calls. *)
Definition draws (cs : list Call) : list Z :=
  omap (fun c => match c with CallIntn _ d => Some d | _ => None end) cs.

(** [l] starts with [k]. *)
Definition extends {A} (k l : list A) : Prop := exists new, l = (k ++ new)%list.

Module more_scenario.

(** A store that accepts every request. *)
Definition open_store : s3.Store :=
  {| s3.respond := fun _ => None; s3.objects := ∅ |}.

(** A Go process like [scenario.go] on a given store. *)
Definition go_on (s : s3.Store) (v : Z) : create.World :=
  create.with_uploader s (scenario.go v).

(** A request without headers. *)
Definition bare_request : create.APIGatewayProxyRequest :=
  {| create.Resource := "/create";
     create.HTTPMethod := "POST";
     create.Headers := ∅;
     create.RequestContext := {| create.Protocol := "HTTP/1.1" |} |}.

(** A marshaller that writes something else than JSON. *)
Definition other_Marshal (v : CustomObject) : string * option json.error :=
  ("item=" ++ Item v, None).

End more_scenario.

Module java_more.
Import CreateHandler.

(** The process with another value left in the static field by an
    earlier invocation (or none). *)
Definition with_static (b : option string) (w : World) : World :=
  {| environment := environment w;
     INPUT_S3_BUCKET_NAME := b;
     s3Client := s3Client w;
     currentTimeMillis := currentTimeMillis w;
     calls := calls w |}.

End java_more.

(** Every byte of [s] is ASCII. *)
Fixpoint is_ascii (s : string) : bool :=
  match s with
  | EmptyString => true
  | String c t => (byte_val c <? 0x80) && is_ascii t
  end.

(** The Go struct with the fields of a Java object. *)
Definition of_daos (o : daos.CustomObject) : CustomObject :=
  {| Item := daos.getItem o; IsUpdated := daos.getIsUpdated o;
     IsChecked := daos.getIsChecked o |}.

(* ===================================================================== *)
(** ** Strings and lists *)
(* ===================================================================== *)

Lemma str_cons_app (c : ascii) (s t : string) :
  String c s ++ t = String c (s ++ t).
Proof. reflexivity. Qed.

Lemma str_nil_app (t : string) : EmptyString ++ t = t.
Proof. reflexivity. Qed.

Lemma str_app_nil_r (s : string) : s ++ EmptyString = s.
Proof.
  induction s as [|c s IH]; [reflexivity|].
  by rewrite str_cons_app, IH.
Qed.

Lemma str_app_assoc (s t u : string) : (s ++ t) ++ u = s ++ (t ++ u).
Proof.
  induction s as [|c s IH]; [reflexivity|].
  by rewrite !str_cons_app, IH.
Qed.

Section list_facts.
Context {A : Type}.
Local Open Scope list_scope.

Lemma lookup_snoc (l : list A) (x : A) : (l ++ [x]) !! length l = Some x.
Proof. by apply list_lookup_middle. Qed.

Lemma insert_snoc (l : list A) (x y : A) :
  <[length l := y]> (l ++ [x]) = l ++ [y].
Proof.
  rewrite insert_app_r_alt by lia.
  by rewrite Nat.sub_diag.
Qed.

Lemma lookup_snoc2 (l : list A) (x y : A) :
  (l ++ [x; y]) !! length l = Some x.
Proof. by apply list_lookup_middle. Qed.

Lemma insert_snoc2 (l : list A) (x y z : A) :
  <[length l := z]> (l ++ [x; y]) = l ++ [z; y].
Proof.
  rewrite insert_app_r_alt by lia.
  by rewrite Nat.sub_diag.
Qed.

Lemma lookup_snoc2' (l : list A) (x y : A) :
  (l ++ [x; y]) !! S (length l) = Some y.
Proof.
  change (l ++ [x; y]) with (l ++ [x] ++ [y]).
  rewrite app_assoc. apply list_lookup_middle.
  rewrite length_app. simpl. lia.
Qed.

Lemma insert_snoc2' (l : list A) (x y z : A) :
  <[S (length l) := z]> (l ++ [x; y]) = l ++ [x; z].
Proof.
  rewrite insert_app_r_alt by lia.
  replace (S (length l) - length l)%nat with 1%nat by lia.
  reflexivity.
Qed.

Lemma drop_length_app (l k : list A) : drop (length l) (l ++ k) = k.
Proof. by rewrite drop_app_length. Qed.
End list_facts.

Ltac go_run :=
  repeat first
    [ progress cbn [fst snd app rand.Intn
                    create.randomizer create.OTEL_SERVICE_NAME
                    create.INPUT_S3_BUCKET_NAME create.uploader create.clock
                    create.spans create.stdout create.calls]
    | rewrite lookup_snoc
    | rewrite insert_snoc
    | rewrite lookup_snoc2
    | rewrite insert_snoc2
    | rewrite lookup_snoc2'
    | rewrite insert_snoc2'
    | rewrite <- app_assoc ];
  try reflexivity.

Section create_facts.
Import create create_obs.

(** [storeObjectInS3] in closed form. *)
Lemma storeObjectInS3_run ctx parentSpan jsonBody w :
  storeObjectInS3 ctx parentSpan jsonBody w =
  let '(err, u) := s3.put (request jsonBody w) (uploader w) in
  (err,
   after_store jsonBody err u (spans w ++ [child_final ctx w err]) [] w).
Proof.
  unfold storeObjectInS3, startS3PutSpan, causeError, Start, bind, ret,
    Println, randomizer_Intn, time_Now_UnixMilli, UploadWithContext,
    SetAttributes, End_, update_span, request, draw, log,
    with_calls, with_stdout, with_spans, with_uploader, with_randomizer,
    after_store, child_final, child_started.
  go_run.
  destruct (s3.put _ (uploader w)) as [[e|] u] eqn:Hput; go_run.
Qed.

(** [handler_with] in closed form. *)
Lemma handler_with_run Marshal req w :
  handler_with Marshal req w =
  let '(jsonBody, merr) := Marshal body0 in
  match merr with
  | Some _ =>
      ({| StatusCode := 500; Body := "Failed" |}, None,
       with_stdout (stdout w ++ ["Converting body into JSON has failed."])
         (with_spans (spans w ++ [trace.end_span (root_started req w)]) w))
  | None =>
      let '(err, u) := s3.put (request jsonBody w) (uploader w) in
      ({| StatusCode := if bool_decide (err = None) then 200 else 500;
          Body := if bool_decide (err = None) then jsonBody else "Failed" |},
       None,
       after_store jsonBody err u
         (spans w ++ [ root_final req w err;
                       child_final (Some (length (spans w))) w err ])
         [] w)
  end.
Proof.
  unfold handler_with, bind. unfold startParentSpan, Start.
  fold body0.
  destruct (Marshal body0) as [jsonBody [me|]].
  - unfold Println, End_, update_span, ret, with_stdout, with_spans,
      root_started.
    go_run.
  - rewrite storeObjectInS3_run.
    unfold request, draw, after_store, child_final, child_started,
      root_final, root_started, outcome_event, with_spans.
    go_run.
    destruct (s3.put _ (uploader w)) as [[e|] u] eqn:Hput;
      unfold SetAttributes, AddEvent, End_, update_span, ret, bind,
        with_spans;
      go_run.
Qed.
End create_facts.

Section java_facts.
Import CreateHandler java_obs.

(** [handleRequest] in closed form. *)
Lemma handleRequest_run input context w :
  handleRequest input context w =
  let '(err, s) := s3.put (request w) (s3Client w) in
  (createResponse (if bool_decide (err = None) then 200 else 500)
     (match err with Some text => Some text | None => Some payload end),
   {| environment := environment w;
      INPUT_S3_BUCKET_NAME := environment w !! "INPUT_S3_BUCKET_NAME";
      s3Client := s;
      currentTimeMillis := currentTimeMillis w;
      calls := calls w ++
        [ CallNow (currentTimeMillis w); CallUpload (request w) err ] |}).
Proof.
  unfold handleRequest, storeObjectInS3, parseEnvVars,
    getByteArrayOutputStream, System_currentTimeMillis, putObject,
    request, payload, getStringOfCustomObject, tryCatch, andThen, pure,
    ret.
  cbn [environment INPUT_S3_BUCKET_NAME s3Client currentTimeMillis calls].
  destruct (s3.put _ (s3Client w)) as [[e|] s] eqn:Hput;
    cbn [environment INPUT_S3_BUCKET_NAME s3Client currentTimeMillis calls
         getMessage];
    rewrite <- ?app_assoc; reflexivity.
Qed.
End java_facts.

(* ===================================================================== *)
(** ** The handlers: responses, spans and writes *)
(* ===================================================================== *)


Lemma issued_app (cs new : list Call) :
  issued cs (cs ++ new) = uploads new.
Proof. unfold issued. by rewrite drop_length_app. Qed.

Lemma go_payload : create_obs.payload = scenario_A_body.
Proof. reflexivity. Qed.

Lemma java_payload : java_obs.payload = scenario_A_body.
Proof. reflexivity. Qed.

Lemma scenario_A_body_decodes v :
  json.Unmarshal scenario_A_body v = inl create_obs.body0.
Proof. reflexivity. Qed.

Lemma handler_run req w :
  create.handler req w =
  let '(err, u) :=
    s3.put (create_obs.request create_obs.payload w) (create.uploader w) in
  ({| create.StatusCode := if bool_decide (err = None) then 200 else 500;
      create.Body :=
        if bool_decide (err = None) then create_obs.payload else "Failed" |},
   None,
   create_obs.after_store create_obs.payload err u
     (create.spans w ++
        [ create_obs.root_final req w err;
          create_obs.child_final (Some (length (create.spans w))) w err ])
     [] w).
Proof. unfold create.handler. by rewrite handler_with_run. Qed.

Lemma put_answer (i : s3.UploadInput) (s : s3.Store) :
  fst (s3.put i s) = s3.respond s i.
Proof.
  unfold s3.put. destruct (s3.respond s i); [reflexivity|].
  by destruct (s3.Bucket i), (s3.Key i).
Qed.

(** C1. Every Ingress invocation, Go or Java, issues exactly one storage
    write, whose outcome is the answer of the store to it; the response
    status is 200 when that write was accepted and 500 when it was
    refused, so it is 200 exactly when the one write of the invocation
    succeeded; the body of a 200 response is the JSON text of Scenario A,
    which decodes to the record with item [test] and both flags false.
    The status 200 is reached: both handlers answer it in the scenario
    whose store accepts the write. *)
Theorem ingress_status_200_iff_write_succeeded :
  (forall req w,
     let '(resp, _, w') := create.handler req w in
     (exists i e,
        issued (create.calls w) (create.calls w') = [(i, e)]
        /\ e = s3.respond (create.uploader w) i
        /\ (create.StatusCode resp = 200 <-> e = None)
        /\ (create.StatusCode resp = 500 <-> e <> None))
     /\ (create.StatusCode resp = 200 <->
         exists i, issued (create.calls w) (create.calls w') = [(i, None)])
     /\ (create.StatusCode resp = 200 ->
         create.Body resp = scenario_A_body
         /\ forall v,
              json.Unmarshal (create.Body resp) v =
              inl {| Item := "test"; IsUpdated := false;
                     IsChecked := false |}))
  /\
  (forall input context w,
     let '(resp, w') := CreateHandler.handleRequest input context w in
     (exists i e,
        issued (CreateHandler.calls w) (CreateHandler.calls w') = [(i, e)]
        /\ e = s3.respond (CreateHandler.s3Client w) i
        /\ (CreateHandler.statusCode resp = 200 <-> e = None)
        /\ (CreateHandler.statusCode resp = 500 <-> e <> None))
     /\ (CreateHandler.statusCode resp = 200 <->
         exists i,
           issued (CreateHandler.calls w) (CreateHandler.calls w') = [(i, None)])
     /\ (CreateHandler.statusCode resp = 200 ->
         CreateHandler.body resp = Some scenario_A_body
         /\ forall v,
              json.Unmarshal scenario_A_body v =
              inl {| Item := "test"; IsUpdated := false;
                     IsChecked := false |}))
  /\
  (let '(resp, _, w') := create.handler scenario.request (scenario.go 7) in
   create.StatusCode resp = 200
   /\ create.Body resp = scenario_A_body
   /\ length (issued (create.calls (scenario.go 7)) (create.calls w'))
      = 1%nat)
  /\
  (let w := scenario.java scenario.store (Some "otel-input") in
   let '(resp, w') := CreateHandler.handleRequest tt tt w in
   CreateHandler.statusCode resp = 200
   /\ CreateHandler.body resp = Some scenario_A_body
   /\ length (issued (CreateHandler.calls w) (CreateHandler.calls w'))
      = 1%nat).
Proof.
  split; [|split; [|split; [by vm_compute | by vm_compute]]].
  - intros req w. rewrite handler_run.
    pose proof (put_answer (create_obs.request create_obs.payload w)
                  (create.uploader w)) as Hans.
    destruct (s3.put _ (create.uploader w)) as [[e|] u];
      cbn [fst] in Hans;
      cbn [create.StatusCode create.Body create_obs.after_store create.calls];
      rewrite issued_app; cbn.
    + split; [|split; [split|]]; [ | discriminate | | discriminate].
      * do 2 eexists. split; [reflexivity|]. split; [exact Hans|].
        split; split; try discriminate; reflexivity.
      * intros [i Hi]. discriminate.
    + split; [|split; [split; eauto|]].
      * do 2 eexists. split; [reflexivity|]. split; [exact Hans|].
        split; split; try discriminate; try reflexivity.
        intros H. by destruct H.
      * intros _. split; [apply go_payload|].
        intros v. rewrite go_payload. apply scenario_A_body_decodes.
  - intros input context w. rewrite handleRequest_run.
    pose proof (put_answer (java_obs.request w)
                  (CreateHandler.s3Client w)) as Hans.
    destruct (s3.put _ (CreateHandler.s3Client w)) as [[e|] s];
      cbn [fst] in Hans;
      cbn [CreateHandler.statusCode CreateHandler.body CreateHandler.calls
           CreateHandler.createResponse];
      rewrite issued_app; cbn.
    + split; [|split; [split|]]; [ | discriminate | | discriminate].
      * do 2 eexists. split; [reflexivity|]. split; [exact Hans|].
        split; split; try discriminate; reflexivity.
      * intros [i Hi]. discriminate.
    + split; [|split; [split; eauto|]].
      * do 2 eexists. split; [reflexivity|]. split; [exact Hans|].
        split; split; try discriminate; try reflexivity.
        intros H. by destruct H.
      * intros _. split; [by rewrite java_payload|].
        apply scenario_A_body_decodes.
Qed.

(** C10. The Go handler returns a nil error on every path, whatever the
    marshaller and the store answer: after a failed serialization, after a
    failed write and after success. *)
Theorem handler_error_is_always_nil :
  forall Marshal req w,
    snd (fst (create.handler_with Marshal req w)) = None.
Proof.
  intros Marshal req w. rewrite handler_with_run.
  destruct (Marshal create_obs.body0) as [jsonBody [me|]]; [reflexivity|].
  by destruct (s3.put _ (create.uploader w)).
Qed.

(** C7. When serialization fails, the Go handler answers 500, asks nothing
    of the outside (no draw, no clock reading, no write; the store is
    untouched), and leaves the root span with the attributes it was started
    with, without event and with its status unset. *)
Theorem serialization_failure_is_local Marshal req w jsonBody e :
  Marshal create_obs.body0 = (jsonBody, Some e) ->
  let '(resp, _, w') := create.handler_with Marshal req w in
  create.StatusCode resp = 500
  /\ create.calls w' = create.calls w
  /\ create.uploader w' = create.uploader w
  /\ exists root,
       create.spans w' = (create.spans w ++ [root])%list
       /\ trace.attributes root =
          trace.attributes (create_obs.root_started req w)
       /\ trace.events root = []
       /\ trace.status root = trace.Unset.
Proof.
  intros HM. rewrite handler_with_run, HM.
  cbn. repeat split. eexists. repeat split.
Qed.

Lemma serialization_failure_is_local_witness :
  let '(resp, _, w') :=
    create.handler_with scenario.failing_Marshal scenario.request
      (scenario.go 7) in
  create.StatusCode resp = 500
  /\ create.calls w' = create.calls (scenario.go 7)
  /\ create.uploader w' = create.uploader (scenario.go 7)
  /\ exists root,
       create.spans w' = (create.spans (scenario.go 7) ++ [root])%list
       /\ trace.attributes root =
          trace.attributes
            (create_obs.root_started scenario.request (scenario.go 7))
       /\ trace.events root = []
       /\ trace.status root = trace.Unset.
Proof.
  apply (serialization_failure_is_local scenario.failing_Marshal
           scenario.request (scenario.go 7) EmptyString
           (json.UnsupportedTypeError "CustomObject")).
  reflexivity.
Defined.

(** C6, counterexample.  The write of this invocation is redirected to
    the wrong bucket and fails, the error is returned, and yet the client
    span around the write records no error status: its status is still
    unset when the span has ended. *)
Lemma failed_write_leaves_client_status_unset :
  let '(err, w') :=
    create.storeObjectInS3 None 0%nat scenario_A_body (scenario.go 1) in
  err = Some "NoSuchBucket: The specified bucket does not exist"
  /\ exists child,
       create.spans w' !! length (create.spans (scenario.go 1)) = Some child
       /\ trace.name child = "S3.PutObject"
       /\ trace.kind child = trace.SpanKindClient
       /\ trace.ended child = true
       /\ trace.status child = trace.Unset
       /\ trace.status child <> trace.Error.
Proof.
  rewrite storeObjectInS3_run. cbn.
  split; [reflexivity|]. eexists. split; [reflexivity|].
  cbn. by repeat split.
Qed.

(** C6. When the storage call of [storeObjectInS3] fails with error text
    [e], the client span started for the write carries the attributes
    [otel.status_code = ERROR] and an [otel.status_description] that
    contains [e], its status itself stays unset, and the function returns
    that error. *)
Theorem failed_write_is_recorded_and_returned ctx parentSpan jsonBody w i e :
  issued (create.calls w)
    (create.calls (snd (create.storeObjectInS3 ctx parentSpan jsonBody w)))
  = [(i, Some e)] ->
  let '(err, w') := create.storeObjectInS3 ctx parentSpan jsonBody w in
  err = Some e
  /\ exists child description,
       create.spans w' !! length (create.spans w) = Some child
       /\ trace.kind child = trace.SpanKindClient
       /\ In semconv.OtelStatusCodeError (trace.attributes child)
       /\ In (semconv.OtelStatusDescription description)
             (trace.attributes child)
       /\ contains description e
       /\ description = "Storing custom object into S3 is failed.: " ++ e
       /\ trace.status child = trace.Unset.
Proof.
  rewrite storeObjectInS3_run.
  destruct (s3.put _ (create.uploader w)) as [err u].
  cbn [snd create_obs.after_store create.calls create.spans].
  rewrite issued_app. cbn. intros [= _ ->].
  split; [reflexivity|].
  exists (create_obs.child_final ctx w (Some e)).
  eexists. split; [apply lookup_snoc|].
  cbn. split; [reflexivity|]. split; [tauto|]. split; [eauto|].
  split; [|split; reflexivity].
  exists "Storing custom object into S3 is failed.: ", EmptyString.
  by rewrite str_app_nil_r.
Qed.

Lemma failed_write_is_recorded_and_returned_witness :
  let '(err, w') :=
    create.storeObjectInS3 None 0%nat scenario_A_body (scenario.go 1) in
  err = Some "NoSuchBucket: The specified bucket does not exist"
  /\ exists child description,
       create.spans w' !! length (create.spans (scenario.go 1)) = Some child
       /\ trace.kind child = trace.SpanKindClient
       /\ In semconv.OtelStatusCodeError (trace.attributes child)
       /\ In (semconv.OtelStatusDescription description)
             (trace.attributes child)
       /\ contains description
            "NoSuchBucket: The specified bucket does not exist"
       /\ description
          = "Storing custom object into S3 is failed.: "
            ++ "NoSuchBucket: The specified bucket does not exist"
       /\ trace.status child = trace.Unset.
Proof.
  apply (failed_write_is_recorded_and_returned None 0%nat scenario_A_body
           (scenario.go 1)
           {| s3.Bucket := Some "wrong-bucket-name";
              s3.Key := Some "1700000000123";
              s3.Body := scenario_A_body |}).
  reflexivity.
Defined.

(** C4. Whatever the generator delivers, [storeObjectInS3] sends exactly
    one write; its key is the timestamp and its body the bytes it was
    given, so two runs that differ only in the generator send the same key
    and the same body and differ at most in the bucket, which is the
    configured one unless the draw is the sentinel.  The body the handler
    passes is the encoded record, which decodes again. *)
Theorem injection_alters_only_the_bucket :
  (forall ctx parentSpan jsonBody w r,
     let w2 := create.with_randomizer r w in
     exists i1 e1 i2 e2,
       issued (create.calls w)
         (create.calls (snd (create.storeObjectInS3 ctx parentSpan jsonBody w)))
       = [(i1, e1)]
       /\ issued (create.calls w2)
            (create.calls
               (snd (create.storeObjectInS3 ctx parentSpan jsonBody w2)))
          = [(i2, e2)]
       /\ s3.Key i1 = s3.Key i2
       /\ s3.Body i1 = jsonBody /\ s3.Body i2 = jsonBody
       /\ s3.Bucket i1 =
          Some (if create_obs.draw w =? 1 then "wrong-bucket-name"
                else create.INPUT_S3_BUCKET_NAME w)
       /\ s3.Bucket i2 =
          Some (if create_obs.draw w2 =? 1 then "wrong-bucket-name"
                else create.INPUT_S3_BUCKET_NAME w))
  /\
  (forall req w,
     exists i e,
       issued (create.calls w) (create.calls (snd (create.handler req w)))
       = [(i, e)]
       /\ s3.Body i = scenario_A_body
       /\ forall v, json.Unmarshal (s3.Body i) v = inl create_obs.body0).
Proof.
  split.
  - intros ctx parentSpan jsonBody w r w2.
    rewrite !storeObjectInS3_run.
    destruct (s3.put _ (create.uploader w)) as [e1 u1].
    destruct (s3.put _ (create.uploader w2)) as [e2 u2].
    cbn [snd create_obs.after_store create.calls].
    rewrite !issued_app.
    do 4 eexists. repeat split.
  - intros req w. rewrite handler_run.
    destruct (s3.put _ (create.uploader w)) as [e u].
    cbn [snd create_obs.after_store create.calls].
    rewrite issued_app.
    do 2 eexists. split; [reflexivity|]. split; [reflexivity|].
    intros v. apply scenario_A_body_decodes.
Qed.

(** On the values [Int31n(15)] accepts, every residue has the same number
    of preimages: the draw is unbiased if the source is. *)
Lemma Intn_15_unbiased (d v : Z) :
  0 <= d < 15 -> 0 <= v <= rand.Int31n_max 15 ->
  v mod 15 = d <-> exists q, 0 <= q < 143165576 /\ v = 15 * q + d.
Proof.
  change (rand.Int31n_max 15) with 2147483639. intros Hd Hv. split.
  - intros <-. exists (v / 15). Z.div_mod_to_equations. lia.
  - intros (q & Hq & ->). Z.div_mod_to_equations. lia.
Qed.

(** [json.Marshal] does not fail on a [CustomObject]: the branch of C7 is
    entered only with another marshaller. *)
Lemma Marshal_never_fails (o : CustomObject) : snd (json.Marshal o) = None.
Proof. reflexivity. Qed.

(** C2, as stated, fails on the Java handler: its write is not preceded by
    any draw. *)
Lemma java_write_consults_no_injector :
  ~ consulted_before_every_write
      (CreateHandler.calls
         (snd (CreateHandler.handleRequest tt tt
                 (scenario.java scenario.store (Some "otel-input"))))).
Proof.
  intros H.
  destruct (H [CallNow 1700000000123]
              {| s3.Bucket := Some "otel-input";
                 s3.Key := Some "1700000000123";
                 s3.Body := scenario_A_body |} None [] eq_refl)
    as (n & d & [Hin | []]).
  discriminate.
Qed.

Lemma draw_with_next_source_value (v : Z) (w : create.World) :
  create_obs.draw (create_obs.with_next_source_value v w) = v mod 15
  /\ fst (create.causeError (create_obs.with_next_source_value v w))
     = (v mod 15 =? 1).
Proof.
  unfold create_obs.draw, create_obs.with_next_source_value, create.causeError,
    create.randomizer_Intn, bind, ret, rand.Intn.
  cbn. by rewrite decide_True.
Qed.

Lemma fifteen_values :
  seqZ 0 15 = [0; 1; 2; 3; 4; 5; 6; 7; 8; 9; 10; 11; 12; 13; 14].
Proof. reflexivity. Qed.

(** Of fifteen consecutive source values, one gives the result [d]. *)
Lemma one_in_fifteen_consecutive (v d : Z) :
  In d (seqZ 0 15) ->
  length (List.filter (fun k => (v + k) mod 15 =? d) (seqZ 0 15)) = 1%nat.
Proof.
  intros Hd.
  rewrite (List.filter_ext _ (fun k => (v mod 15 + k) mod 15 =? d))
    by (intros k; by rewrite Zplus_mod_idemp_l).
  pose proof (Z.mod_pos_bound v 15 ltac:(lia)) as Hr.
  assert (Hv : In (v mod 15) (seqZ 0 15))
    by (rewrite fifteen_values; cbn; lia).
  revert Hv Hd. generalize (v mod 15). clear. intros r.
  rewrite fifteen_values. cbn [In]. intros Hr Hd.
  repeat (destruct Hr as [<- | Hr]; [|]);
    repeat (destruct Hd as [<- | Hd]; [reflexivity|]); by destruct Hd.
Qed.

(** C2, amended. In the Go handler every storage write is preceded by one
    draw [d] of [Intn(15)], so [0 <= d < 15]; the write goes to
    [wrong-bucket-name] exactly when [causeError] answers true, which is
    exactly when [d] is the sentinel 1.  The draw is the next value [v]
    the generator accepts from its source, modulo 15: the accepted values
    are the [15 * 143165576] values up to [Int31n_max 15], each result [d]
    comes from [143165576] of them, the values [15 * q + d], so the draw
    is uniform when the source is, and the injector fires on the values
    [15 * q + 1], one in fifteen; of any fifteen consecutive source values
    every result comes from one and the injector fires on one.  The Java
    handler draws nothing: it reads the clock and writes to the configured
    bucket. *)
Theorem go_write_consults_injector_first :
  (forall ctx parentSpan jsonBody w,
     let '(_, w') := create.storeObjectInS3 ctx parentSpan jsonBody w in
     exists d i e,
       create.calls w' =
         (create.calls w
            ++ [CallIntn 15 d; CallNow (create.clock w); CallUpload i e])%list
       /\ 0 <= d < 15
       /\ d = create_obs.next_source_value w mod 15
       /\ fst (create.causeError w) = (d =? 1)
       /\ s3.Bucket i =
          Some (if fst (create.causeError w) then "wrong-bucket-name"
                else create.INPUT_S3_BUCKET_NAME w)
       /\ consulted_before_every_write
            (drop (length (create.calls w)) (create.calls w')))
  /\ rand.Int31n_max 15 + 1 = 15 * 143165576
  /\ (forall w d,
       0 <= d < 15 ->
       0 <= create_obs.next_source_value w <= rand.Int31n_max 15 ->
       (create_obs.draw w = d <->
        exists q, 0 <= q < 143165576
                  /\ create_obs.next_source_value w = 15 * q + d)
       /\ (fst (create.causeError w) = true <->
           exists q, 0 <= q < 143165576
                     /\ create_obs.next_source_value w = 15 * q + 1))
  /\ (forall w v,
       Forall
         (fun d =>
            length
              (List.filter
                 (fun k =>
                    create_obs.draw
                      (create_obs.with_next_source_value (v + k) w) =? d)
                 (seqZ 0 15)) = 1%nat)
         (seqZ 0 15)
       /\ length
            (List.filter
               (fun k =>
                  fst (create.causeError
                         (create_obs.with_next_source_value (v + k) w)))
               (seqZ 0 15)) = 1%nat)
  /\
  (forall input context w,
     let '(_, w') := CreateHandler.handleRequest input context w in
     exists i e,
       CreateHandler.calls w' =
         (CreateHandler.calls w
            ++ [CallNow (CreateHandler.currentTimeMillis w);
                CallUpload i e])%list
       /\ s3.Bucket i =
          CreateHandler.environment w !! "INPUT_S3_BUCKET_NAME").
Proof.
  split; [|split; [reflexivity|split; [|split]]].
  - intros ctx parentSpan jsonBody w. rewrite storeObjectInS3_run.
    destruct (s3.put _ (create.uploader w)) as [e u].
    exists (create_obs.draw w), (create_obs.request jsonBody w), e.
    cbn [create_obs.after_store create.calls].
    split; [reflexivity|].
    split; [apply Z.mod_pos_bound; lia|].
    split; [reflexivity|].
    split; [reflexivity|]. split; [reflexivity|].
    rewrite drop_length_app.
    intros pre i0 e0 post Heq.
    destruct pre as [|c0 pre]; [discriminate|].
    injection Heq as <- Heq.
    exists 15, (create_obs.draw w). by left.
  - intros w d Hd Hv. split.
    + apply (Intn_15_unbiased d _ Hd Hv).
    + change (fst (create.causeError w)) with (create_obs.draw w =? 1).
      rewrite Z.eqb_eq. apply (Intn_15_unbiased 1 _ ltac:(lia) Hv).
  - intros w v. split.
    + apply List.Forall_forall. intros d Hd.
      rewrite (List.filter_ext _ (fun k => (v + k) mod 15 =? d))
        by (intros k; by rewrite (proj1 (draw_with_next_source_value _ w))).
      by apply one_in_fifteen_consecutive.
    + rewrite (List.filter_ext _ (fun k => (v + k) mod 15 =? 1))
        by (intros k; by rewrite (proj2 (draw_with_next_source_value _ w))).
      apply one_in_fifteen_consecutive. rewrite fifteen_values. cbn. lia.
  - intros input context w. rewrite handleRequest_run.
    destruct (s3.put _ (CreateHandler.s3Client w)) as [e s].
    cbn [CreateHandler.calls]. by do 2 eexists.
Qed.

Lemma go_write_consults_injector_first_witness :
  0 <= create_obs.next_source_value (scenario.go 16) <= rand.Int31n_max 15
  /\ (create_obs.draw (scenario.go 16) = 1 <->
      exists q, 0 <= q < 143165576
                /\ create_obs.next_source_value (scenario.go 16) = 15 * q + 1)
  /\ (fst (create.causeError (scenario.go 16)) = true <->
      exists q, 0 <= q < 143165576
                /\ create_obs.next_source_value (scenario.go 16) = 15 * q + 1).
Proof.
  assert (H : 0 <= create_obs.next_source_value (scenario.go 16)
              <= rand.Int31n_max 15)
    by (vm_compute; split; discriminate).
  split; [exact H|].
  apply (proj1 (proj2 (proj2 go_write_consults_injector_first))
           (scenario.go 16) 1); [lia | exact H].
Defined.

(** C3, as stated, fails on the Java handler: the body of its 500 response
    is the text of the failure, which differs from one failure to another. *)
Lemma java_failure_body_is_not_fixed :
  let r1 :=
    fst (CreateHandler.handleRequest tt tt
           (scenario.java scenario.store None)) in
  let r2 :=
    fst (CreateHandler.handleRequest tt tt
           (scenario.java scenario.denying_store (Some "otel-input"))) in
  CreateHandler.statusCode r1 = 500
  /\ CreateHandler.statusCode r2 = 500
  /\ CreateHandler.body r1 <> CreateHandler.body r2.
Proof. repeat split. discriminate. Qed.

(** C3, amended. When the storage write of an invocation fails with error
    text [e]: the Go handler appends [http.status_code = 500] to the
    attributes of the root span (the status of the span stays unset),
    attaches the event [LambdaCreateEvent] with [is.successful = false]
    and [bucket.id] the configured bucket, and answers 500 with the body
    [Failed]; the Java handler answers 500 with [e] as the body. *)
Theorem write_failure_response_and_root_span :
  (forall req w i e,
     issued (create.calls w) (create.calls (snd (create.handler req w)))
     = [(i, Some e)] ->
     let '(resp, _, w') := create.handler req w in
     resp = {| create.StatusCode := 500; create.Body := "Failed" |}
     /\ exists root,
          create.spans w' !! length (create.spans w) = Some root
          /\ trace.kind root = trace.SpanKindServer
          /\ trace.parent root = None
          /\ trace.attributes root =
             (trace.attributes (create_obs.root_started req w)
                ++ [semconv.HTTPStatusCode 500])%list
          /\ trace.status root = trace.Unset
          /\ trace.events root =
             [ {| trace.event_name := "LambdaCreateEvent";
                  trace.event_attributes :=
                    [ attribute.Bool_ "is.successful" false;
                      attribute.String_ "bucket.id"
                        (create.INPUT_S3_BUCKET_NAME w) ] |} ])
  /\
  (forall input context w i e,
     issued (CreateHandler.calls w)
       (CreateHandler.calls
          (snd (CreateHandler.handleRequest input context w)))
     = [(i, Some e)] ->
     let '(resp, _) := CreateHandler.handleRequest input context w in
     CreateHandler.statusCode resp = 500
     /\ CreateHandler.body resp = Some e).
Proof.
  split.
  - intros req w i e. rewrite handler_run.
    destruct (s3.put _ (create.uploader w)) as [err u].
    cbn [snd create_obs.after_store create.calls create.spans].
    rewrite issued_app. cbn. intros [= _ ->].
    split; [reflexivity|].
    eexists. split; [apply lookup_snoc2|].
    repeat split.
  - intros input context w i e. rewrite handleRequest_run.
    destruct (s3.put _ (CreateHandler.s3Client w)) as [err s].
    cbn [snd CreateHandler.calls]. rewrite issued_app. cbn.
    intros [= _ ->]. by split.
Qed.

Lemma write_failure_response_and_root_span_witness :
  (let '(resp, _, w') := create.handler scenario.request (scenario.go 1) in
   resp = {| create.StatusCode := 500; create.Body := "Failed" |}
   /\ exists root,
        create.spans w' !! length (create.spans (scenario.go 1)) = Some root
        /\ trace.kind root = trace.SpanKindServer
        /\ trace.parent root = None
        /\ trace.attributes root =
           (trace.attributes
              (create_obs.root_started scenario.request (scenario.go 1))
              ++ [semconv.HTTPStatusCode 500])%list
        /\ trace.status root = trace.Unset
        /\ trace.events root =
           [ {| trace.event_name := "LambdaCreateEvent";
                trace.event_attributes :=
                  [ attribute.Bool_ "is.successful" false;
                    attribute.String_ "bucket.id"
                      (create.INPUT_S3_BUCKET_NAME (scenario.go 1)) ] |} ])
  /\
  (let '(resp, _) :=
     CreateHandler.handleRequest tt tt
       (scenario.java scenario.denying_store (Some "otel-input")) in
   CreateHandler.statusCode resp = 500
   /\ CreateHandler.body resp = Some "AccessDenied: Access Denied").
Proof.
  split.
  - apply (proj1 write_failure_response_and_root_span scenario.request
             (scenario.go 1)
             {| s3.Bucket := Some "wrong-bucket-name";
                s3.Key := Some "1700000000123";
                s3.Body := scenario_A_body |}
             "NoSuchBucket: The specified bucket does not exist").
    reflexivity.
  - apply (proj2 write_failure_response_and_root_span tt tt
             (scenario.java scenario.denying_store (Some "otel-input"))
             {| s3.Bucket := Some "otel-input";
                s3.Key := Some "1700000000123";
                s3.Body := scenario_A_body |}
             "AccessDenied: Access Denied").
    reflexivity.
Defined.

Lemma ParseInt_FormatInt (z : Z) :
  strconv.ParseInt (strconv.FormatInt z) = Some z.
Proof.
  unfold strconv.ParseInt, strconv.FormatInt.
  rewrite NilZero.isi.
  - by rewrite of_to.
  - destruct z; cbn; [discriminate| |discriminate].
    intros [= H]. by apply Unsigned.to_uint_nonnil in H.
  - destruct z; cbn; [discriminate|discriminate|].
    intros [= H]. by apply Unsigned.to_uint_nonnil in H.
Qed.

Lemma put_accepted (i : s3.UploadInput) (s s' : s3.Store) b k :
  s3.put i s = (None, s') ->
  s3.Bucket i = Some b -> s3.Key i = Some k ->
  s3.objects s' = <[(b, k) := s3.Body i]> (s3.objects s).
Proof.
  unfold s3.put. intros H Hb Hk. rewrite Hb, Hk in H.
  destruct (s3.respond s i); [discriminate|].
  by injection H as <-.
Qed.

Lemma put_stores_one (i : s3.UploadInput) (s s' : s3.Store) b k :
  s3.put i s = (None, s') ->
  s3.Bucket i = Some b -> s3.Key i = Some k ->
  one_object_stored s s' b k (s3.Body i).
Proof.
  intros H Hb Hk. pose proof (put_accepted _ _ _ _ _ H Hb Hk) as Ho.
  split; [exact Ho|]. rewrite Ho. split; [apply lookup_insert_eq|]. split.
  - intros Hfresh. by apply map_size_insert_None.
  - intros old Hold. apply map_size_insert_Some. by exists old.
Qed.

Lemma put_keeps_respond (i : s3.UploadInput) (s : s3.Store) :
  s3.respond (snd (s3.put i s)) = s3.respond s.
Proof.
  unfold s3.put. destruct (s3.respond s i); [reflexivity|].
  by destruct (s3.Bucket i), (s3.Key i).
Qed.

(** C8, counterexample.  Two invocations in the same millisecond, both
    answered 200: the first creates one object, the second creates none,
    it replaces the object of the first under the same key. *)
Lemma second_success_in_a_millisecond_creates_no_object :
  let '(resp1, _, w1) := create.handler scenario.request (scenario.go 7) in
  let '(resp2, _, w2) := create.handler scenario.request w1 in
  create.StatusCode resp1 = 200
  /\ create.StatusCode resp2 = 200
  /\ size (s3.objects (create.uploader (scenario.go 7))) = 0%nat
  /\ size (s3.objects (create.uploader w1)) = 1%nat
  /\ size (s3.objects (create.uploader w2)) = 1%nat
  /\ s3.objects (create.uploader w2) = s3.objects (create.uploader w1).
Proof.
  rewrite handler_run.
  pose proof (put_answer (create_obs.request create_obs.payload (scenario.go 7))
                (create.uploader (scenario.go 7))) as A1.
  pose proof (put_keeps_respond
                (create_obs.request create_obs.payload (scenario.go 7))
                (create.uploader (scenario.go 7))) as R1.
  destruct (s3.put _ (create.uploader (scenario.go 7))) as [e1 u1] eqn:Hput1.
  cbn [fst snd] in A1, R1.
  rewrite handler_run.
  cbn [create_obs.after_store create.uploader create.StatusCode].
  change (create_obs.request create_obs.payload
            (create_obs.after_store _ _ _ _ _ _))
    with (create_obs.request create_obs.payload (scenario.go 7)).
  pose proof (put_answer (create_obs.request create_obs.payload (scenario.go 7))
                u1) as A2.
  destruct (s3.put _ u1) as [e2 u2] eqn:Hput2.
  cbn [fst] in A2. rewrite R1 in A2.
  cbn [create_obs.after_store create.uploader create.StatusCode].
  assert (e1 = None) as -> by (rewrite A1; reflexivity).
  assert (e2 = None) as -> by (rewrite A2; reflexivity).
  pose proof (put_accepted _ _ _ _ _ Hput1 eq_refl eq_refl) as O1.
  pose proof (put_accepted _ _ _ _ _ Hput2 eq_refl eq_refl) as O2.
  rewrite O2, O1, insert_insert_eq.
  change (s3.objects (create.uploader (scenario.go 7)))
    with (∅ : gmap (string * string) string).
  rewrite map_size_insert_None by apply lookup_empty.
  rewrite map_size_empty.
  by repeat split.
Qed.

(** C8. Every invocation, Go or Java, reads the clock once and sends one
    write whose key is the decimal text of that millisecond timestamp (the
    text parses back to the timestamp).  An invocation that answers 200
    has had that one write accepted: the store then holds the payload
    under that key, with one object more than before when the key was not
    in use in that bucket, and with the same number of objects, the old
    one replaced, when it was. *)
Theorem key_is_timestamp_and_one_object_per_success :
  (forall req w,
     let '(resp, _, w') := create.handler req w in
     exists i e b,
       drop (length (create.calls w)) (create.calls w') =
         [ CallIntn 15 (create_obs.draw w); CallNow (create.clock w);
           CallUpload i e ]
       /\ s3.Bucket i = Some b
       /\ s3.Key i = Some (strconv.FormatInt (create.clock w))
       /\ strconv.ParseInt (strconv.FormatInt (create.clock w)) =
          Some (create.clock w)
       /\ (create.StatusCode resp = 200 ->
           e = None
           /\ one_object_stored (create.uploader w) (create.uploader w')
                b (strconv.FormatInt (create.clock w)) scenario_A_body))
  /\
  (forall input context w,
     let '(resp, w') := CreateHandler.handleRequest input context w in
     exists i e,
       drop (length (CreateHandler.calls w)) (CreateHandler.calls w') =
         [ CallNow (CreateHandler.currentTimeMillis w); CallUpload i e ]
       /\ s3.Bucket i = CreateHandler.environment w !! "INPUT_S3_BUCKET_NAME"
       /\ s3.Key i =
          Some (strconv.FormatInt (CreateHandler.currentTimeMillis w))
       /\ strconv.ParseInt
            (strconv.FormatInt (CreateHandler.currentTimeMillis w)) =
          Some (CreateHandler.currentTimeMillis w)
       /\ (CreateHandler.statusCode resp = 200 ->
           e = None
           /\ forall b,
                s3.Bucket i = Some b ->
                one_object_stored (CreateHandler.s3Client w)
                  (CreateHandler.s3Client w') b
                  (strconv.FormatInt (CreateHandler.currentTimeMillis w))
                  scenario_A_body)).
Proof.
  split.
  - intros req w. rewrite handler_run.
    destruct (s3.put _ (create.uploader w)) as [e u] eqn:Hput.
    cbn [create_obs.after_store create.calls create.uploader
         create.StatusCode].
    rewrite drop_length_app.
    do 3 eexists. split; [reflexivity|]. split; [reflexivity|].
    split; [reflexivity|]. split; [apply ParseInt_FormatInt|].
    destruct e as [e|]; [discriminate|]. intros _.
    split; [reflexivity|].
    rewrite <- go_payload.
    by apply (put_stores_one _ _ _ _ _ Hput).
  - intros input context w. rewrite handleRequest_run.
    destruct (s3.put _ (CreateHandler.s3Client w)) as [e s] eqn:Hput.
    cbn [CreateHandler.calls CreateHandler.s3Client CreateHandler.statusCode
         CreateHandler.createResponse].
    rewrite drop_length_app.
    do 2 eexists. split; [reflexivity|]. split; [reflexivity|].
    split; [reflexivity|]. split; [apply ParseInt_FormatInt|].
    destruct e as [e|]; [discriminate|]. intros _.
    split; [reflexivity|]. intros b Hb.
    rewrite <- java_payload.
    by apply (put_stores_one _ _ _ _ _ Hput).
Qed.

(* ===================================================================== *)
(** ** The flags along the pipeline *)
(* ===================================================================== *)

(** The Go handler and the Java handler start the pipeline with the same
    record. *)
Lemma ingress_record_go_java :
  to_daos create_obs.body0 = pipeline.record pipeline.ingress.
Proof. reflexivity. Qed.

(** The setter of the Java class, called the way Verification calls it
    (with [true], on an updated record), keeps both flags from falling and
    leaves the item alone. *)
Lemma setIsChecked_true_monotone (o : daos.CustomObject) :
  let o' := daos.setIsChecked true o in
  daos.getItem o' = daos.getItem o
  /\ daos.getIsUpdated o' = daos.getIsUpdated o
  /\ pipeline.flag_le (daos.getIsChecked o) (daos.getIsChecked o').
Proof. by repeat split. Qed.

Lemma step_monotone (t t' : pipeline.Tracked) :
  pipeline.step t t' ->
  pipeline.flag_le (daos.getIsUpdated (pipeline.record t))
                   (daos.getIsUpdated (pipeline.record t'))
  /\ pipeline.flag_le (daos.getIsChecked (pipeline.record t))
                      (daos.getIsChecked (pipeline.record t'))
  /\ daos.getItem (pipeline.record t') = daos.getItem (pipeline.record t).
Proof.
  unfold pipeline.flag_le.
  intros [t0 | t0 t1 Hv].
  - cbn. auto.
  - unfold pipeline.verification in Hv.
    destruct (daos.getIsUpdated (pipeline.record t0)) eqn:Hu;
      [|discriminate].
    injection Hv as <-. cbn. auto.
Qed.

Lemma reachable_invariant (t : pipeline.Tracked) :
  pipeline.reachable t ->
  (daos.getIsChecked (pipeline.record t) = true ->
   daos.getIsUpdated (pipeline.record t) = true)
  /\ In pipeline.Ingress (pipeline.passed t)
  /\ (daos.getIsUpdated (pipeline.record t) = true ->
      In pipeline.Transform (pipeline.passed t))
  /\ (daos.getIsChecked (pipeline.record t) = true ->
      In pipeline.Verification (pipeline.passed t)).
Proof.
  induction 1 as [| t t' Hr (IHcu & IHin & IHu & IHc) Hs].
  - cbn. repeat split; try discriminate. by left.
  - destruct Hs as [t | t t' Hv].
    + cbn. repeat split; auto.
    + unfold pipeline.verification in Hv.
      destruct (daos.getIsUpdated (pipeline.record t)) eqn:Hu;
        [|discriminate].
      injection Hv as <-. cbn in *. repeat split; auto.
Qed.

(** C5. For every record of the pipeline (created by Ingress, then passed
    through Transform and Verification any number of times): [isChecked]
    implies [isUpdated], [isUpdated] implies that the record passed
    Ingress (every such record did), and a further stage never takes a
    flag from true back to false. *)
Theorem flags_progress_monotonically (t : pipeline.Tracked) :
  pipeline.reachable t ->
  (daos.getIsChecked (pipeline.record t) = true ->
   daos.getIsUpdated (pipeline.record t) = true)
  /\ (daos.getIsUpdated (pipeline.record t) = true ->
      In pipeline.Ingress (pipeline.passed t))
  /\ (forall t',
        pipeline.step t t' ->
        pipeline.flag_le (daos.getIsUpdated (pipeline.record t))
                         (daos.getIsUpdated (pipeline.record t'))
        /\ pipeline.flag_le (daos.getIsChecked (pipeline.record t))
                            (daos.getIsChecked (pipeline.record t'))).
Proof.
  intros Hr. destruct (reachable_invariant t Hr) as (Hcu & Hin & _ & _).
  split; [exact Hcu|]. split; [auto|].
  intros t' Hs. destruct (step_monotone t t' Hs) as (Hu & Hc & _).
  by split.
Qed.

Lemma flags_progress_monotonically_witness :
  let t :=
    {| pipeline.record := daos.new "test" true true;
       pipeline.passed :=
         [pipeline.Verification; pipeline.Transform; pipeline.Ingress] |} in
  (daos.getIsChecked (pipeline.record t) = true ->
   daos.getIsUpdated (pipeline.record t) = true)
  /\ (daos.getIsUpdated (pipeline.record t) = true ->
      In pipeline.Ingress (pipeline.passed t))
  /\ (forall t',
        pipeline.step t t' ->
        pipeline.flag_le (daos.getIsUpdated (pipeline.record t))
                         (daos.getIsUpdated (pipeline.record t'))
        /\ pipeline.flag_le (daos.getIsChecked (pipeline.record t))
                            (daos.getIsChecked (pipeline.record t'))).
Proof.
  apply (flags_progress_monotonically
           {| pipeline.record := daos.new "test" true true;
              pipeline.passed :=
                [pipeline.Verification; pipeline.Transform;
                 pipeline.Ingress] |}).
  apply (pipeline.reach_step (pipeline.transform pipeline.ingress)).
  - apply (pipeline.reach_step pipeline.ingress).
    + apply pipeline.reach_ingress.
    + apply pipeline.step_transform.
  - apply pipeline.step_verification. reflexivity.
Defined.

(* ===================================================================== *)
(** ** Bytes, bit operations and UTF-8 *)
(* ===================================================================== *)

Lemma byte_val_range (c : ascii) : 0 <= byte_val c < 256.
Proof.
  unfold byte_val. pose proof (N_ascii_bounded c). lia.
Qed.

Lemma byte_of_val (c : ascii) : byte_of (byte_val c) = c.
Proof.
  unfold byte_of, byte_val. rewrite N2Z.id. apply ascii_N_embedding.
Qed.

Lemma byte_val_of (z : Z) : 0 <= z < 256 -> byte_val (byte_of z) = z.
Proof.
  intros Hz. unfold byte_of, byte_val.
  rewrite N_ascii_embedding by lia. lia.
Qed.

(** Bits that do not overlap add up. *)
Lemma lor_disjoint_add (a b k : Z) :
  0 <= k -> 0 <= b < 2 ^ k -> a mod 2 ^ k = 0 -> Z.lor a b = a + b.
Proof.
  intros Hk Hb Ha. symmetry. apply Z.add_nocarry_lor.
  apply Z.bits_inj'. intros n Hn.
  rewrite Z.land_spec, Z.bits_0.
  destruct (Z.lt_ge_cases n k) as [Hlt | Hge].
  - assert (a = (a / 2 ^ k) * 2 ^ k) as ->.
    { pose proof (Z.div_mod a (2 ^ k)). lia. }
    by rewrite Z.mul_pow2_bits_low.
  - assert (Z.testbit b n = false) as ->; [|apply andb_false_r].
    destruct (Z.eq_dec b 0) as [-> | Hb0]; [apply Z.bits_0|].
    apply Z.bits_above_log2; [lia|].
    apply Z.lt_le_trans with k; [|lia].
    apply Z.log2_lt_pow2; lia.
Qed.

Lemma land_mask (x k m p : Z) :
  0 <= k -> m = Z.ones k -> p = 2 ^ k -> Z.land x m = x mod p.
Proof. intros Hk -> ->. by apply Z.land_ones. Qed.

Lemma shiftl_mul (x k p : Z) : 0 <= k -> p = 2 ^ k -> Z.shiftl x k = x * p.
Proof. intros Hk ->. by apply Z.shiftl_mul_pow2. Qed.

Lemma shiftr_div (x k p : Z) : 0 <= k -> p = 2 ^ k -> Z.shiftr x k = x / p.
Proof. intros Hk ->. by apply Z.shiftr_div_pow2. Qed.

Lemma lor_add (a b k p : Z) :
  0 <= k -> p = 2 ^ k -> 0 <= b < p -> a mod p = 0 -> Z.lor a b = a + b.
Proof. intros Hk ->. by apply lor_disjoint_add. Qed.

Ltac bits_to_arith :=
  repeat first
    [ rewrite (land_mask _ 3 7 8) by (lia || reflexivity)
    | rewrite (land_mask _ 4 0xF 16) by (lia || reflexivity)
    | rewrite (land_mask _ 5 0x1F 32) by (lia || reflexivity)
    | rewrite (land_mask _ 6 0x3F 64) by (lia || reflexivity)
    | rewrite (shiftl_mul _ 6 64) by (lia || reflexivity)
    | rewrite (shiftl_mul _ 12 4096) by (lia || reflexivity)
    | rewrite (shiftl_mul _ 18 262144) by (lia || reflexivity)
    | rewrite (shiftr_div _ 4 16) by (lia || reflexivity)
    | rewrite (shiftr_div _ 6 64) by (lia || reflexivity)
    | rewrite (shiftr_div _ 12 4096) by (lia || reflexivity)
    | rewrite (shiftr_div _ 18 262144) by (lia || reflexivity) ].

Ltac arith := Z.div_mod_to_equations; lia.

Section utf8_facts.
Import utf8.

Lemma rune2_arith b0 b1 :
  0xC0 <= b0 <= 0xDF -> 0x80 <= b1 <= 0xBF ->
  rune2 b0 b1 = (b0 - 0xC0) * 64 + (b1 - 0x80).
Proof.
  intros H0 H1. unfold rune2, mask2, maskx. bits_to_arith.
  rewrite (lor_add _ _ 6 64) by (lia || reflexivity || arith).
  arith.
Qed.

Lemma rune3_arith b0 b1 b2 :
  0xE0 <= b0 <= 0xEF -> 0x80 <= b1 <= 0xBF -> 0x80 <= b2 <= 0xBF ->
  rune3 b0 b1 b2 = (b0 - 0xE0) * 4096 + (b1 - 0x80) * 64 + (b2 - 0x80).
Proof.
  intros H0 H1 H2. unfold rune3, mask3, maskx. bits_to_arith.
  rewrite (lor_add (_ * 4096) (_ * 64) 12 4096)
    by (lia || reflexivity || arith).
  rewrite (lor_add _ _ 6 64) by (lia || reflexivity || arith).
  arith.
Qed.

Lemma rune4_arith b0 b1 b2 b3 :
  0xF0 <= b0 <= 0xF7 -> 0x80 <= b1 <= 0xBF -> 0x80 <= b2 <= 0xBF ->
  0x80 <= b3 <= 0xBF ->
  rune4 b0 b1 b2 b3 =
  (b0 - 0xF0) * 262144 + (b1 - 0x80) * 4096 + (b2 - 0x80) * 64 + (b3 - 0x80).
Proof.
  intros H0 H1 H2 H3. unfold rune4, mask4, maskx. bits_to_arith.
  rewrite (lor_add (_ * 262144) (_ * 4096) 18 262144)
    by (lia || reflexivity || arith).
  rewrite (lor_add _ (_ * 64) 12 4096) by (lia || reflexivity || arith).
  rewrite (lor_add _ _ 6 64) by (lia || reflexivity || arith).
  arith.
Qed.

Ltac no_test t :=
  lazymatch t with
  | context [if _ then _ else _] => fail
  | _ => idtac
  end.

Ltac decide_tests :=
  repeat (match goal with
          | |- context [?a <=? ?b] =>
              no_test a; no_test b;
              destruct (Z.leb_spec a b); try (exfalso; lia)
          | |- context [?a <? ?b] =>
              no_test a; no_test b;
              destruct (Z.ltb_spec a b); try (exfalso; lia)
          | |- context [?a =? ?b] =>
              no_test a; no_test b;
              destruct (Z.eqb_spec a b); try (exfalso; lia)
          end;
          cbn [andb orb negb]).

Lemma lead_byte (t x : Z) (k p : Z) :
  0 <= k -> p = 2 ^ k -> t mod p = 0 -> 0 <= x < p -> Z.lor t x = t + x.
Proof. intros Hk Hp Ht Hx. by apply (lor_add t x k p). Qed.

Lemma encode_rune2 b0 b1 :
  0xC2 <= b0 <= 0xDF -> 0x80 <= b1 <= 0xBF ->
  EncodeRune (rune2 b0 b1) = bytes [b0; b1].
Proof.
  intros H0 H1. rewrite rune2_arith by lia.
  set (r := (b0 - 192) * 64 + (b1 - 128)).
  assert (128 <= r <= 0x7FF) as Hr by (subst r; lia).
  assert (Z.shiftr r 6 = b0 - 192) as E0 by (bits_to_arith; subst r; arith).
  assert (Z.land r maskx = b1 - 128) as E1
    by (unfold maskx; bits_to_arith; subst r; arith).
  unfold EncodeRune, rune1Max, rune2Max, rune3Max, MaxRune, surrogateMin,
    surrogateMax.
  decide_tests.
  all: rewrite E0, E1; unfold t2, tx.
  all: rewrite (lead_byte 0xC0 _ 6 64) by (lia || reflexivity).
  all: rewrite (lead_byte 0x80 _ 6 64) by (lia || reflexivity).
  all: unfold bytes; cbn [fold_right]; repeat f_equal; lia.
Qed.

Lemma encode_rune3 b0 b1 b2 :
  0xE0 <= b0 <= 0xEF -> 0x80 <= b1 <= 0xBF -> 0x80 <= b2 <= 0xBF ->
  (b0 = 0xE0 -> 0xA0 <= b1) -> (b0 = 0xED -> b1 <= 0x9F) ->
  EncodeRune (rune3 b0 b1 b2) = bytes [b0; b1; b2].
Proof.
  intros H0 H1 H2 Hlo Hhi. rewrite rune3_arith by lia.
  set (r := (b0 - 224) * 4096 + (b1 - 128) * 64 + (b2 - 128)).
  assert (0x800 <= r <= 0xFFFF) as Hr by (subst r; lia).
  assert (~ (0xD800 <= r <= 0xDFFF)) as Hs by (subst r; lia).
  assert (Z.shiftr r 12 = b0 - 224) as E0 by (bits_to_arith; subst r; arith).
  assert (Z.land (Z.shiftr r 6) maskx = b1 - 128) as E1
    by (unfold maskx; bits_to_arith; subst r; arith).
  assert (Z.land r maskx = b2 - 128) as E2
    by (unfold maskx; bits_to_arith; subst r; arith).
  unfold EncodeRune, rune1Max, rune2Max, rune3Max, MaxRune, surrogateMin,
    surrogateMax.
  decide_tests.
  all: rewrite E0, E1, E2; unfold t3, tx.
  all: rewrite (lead_byte 0xE0 _ 4 16) by (lia || reflexivity).
  all: rewrite !(lead_byte 0x80 _ 6 64) by (lia || reflexivity).
  all: unfold bytes; cbn [fold_right]; repeat f_equal; lia.
Qed.

Lemma encode_rune4 b0 b1 b2 b3 :
  0xF0 <= b0 <= 0xF4 -> 0x80 <= b1 <= 0xBF -> 0x80 <= b2 <= 0xBF ->
  0x80 <= b3 <= 0xBF ->
  (b0 = 0xF0 -> 0x90 <= b1) -> (b0 = 0xF4 -> b1 <= 0x8F) ->
  EncodeRune (rune4 b0 b1 b2 b3) = bytes [b0; b1; b2; b3].
Proof.
  intros H0 H1 H2 H3 Hlo Hhi. rewrite rune4_arith by lia.
  set (r := (b0 - 240) * 262144 + (b1 - 128) * 4096 + (b2 - 128) * 64
            + (b3 - 128)).
  assert (0x10000 <= r <= 0x10FFFF) as Hr by (subst r; lia).
  assert (Z.shiftr r 18 = b0 - 240) as E0 by (bits_to_arith; subst r; arith).
  assert (Z.land (Z.shiftr r 12) maskx = b1 - 128) as E1
    by (unfold maskx; bits_to_arith; subst r; arith).
  assert (Z.land (Z.shiftr r 6) maskx = b2 - 128) as E2
    by (unfold maskx; bits_to_arith; subst r; arith).
  assert (Z.land r maskx = b3 - 128) as E3
    by (unfold maskx; bits_to_arith; subst r; arith).
  unfold EncodeRune, rune1Max, rune2Max, rune3Max, MaxRune, surrogateMin,
    surrogateMax.
  decide_tests.
  all: rewrite E0, E1, E2, E3; unfold t4, tx.
  all: rewrite (lead_byte 0xF0 _ 3 8) by (lia || reflexivity).
  all: rewrite !(lead_byte 0x80 _ 6 64) by (lia || reflexivity).
  all: unfold bytes; cbn [fold_right]; repeat f_equal; lia.
Qed.

Ltac pick :=
  solve [ repeat split; (lia || reflexivity) ] || (left; pick) || (right; pick).

Lemma first_cases b0 :
  (b0 < 0x80 /\ first b0 = as_)
  \/ (0x80 <= b0 < 0xC2 /\ first b0 = xx)
  \/ (0xC2 <= b0 <= 0xDF /\ first b0 = s1)
  \/ (b0 = 0xE0 /\ first b0 = s2)
  \/ ((0xE1 <= b0 <= 0xEC \/ 0xEE <= b0 <= 0xEF) /\ first b0 = s3)
  \/ (b0 = 0xED /\ first b0 = s4)
  \/ (b0 = 0xF0 /\ first b0 = s5)
  \/ (0xF1 <= b0 <= 0xF3 /\ first b0 = s6)
  \/ (b0 = 0xF4 /\ first b0 = s7)
  \/ (0xF5 <= b0 /\ first b0 = xx).
Proof.
  unfold first. decide_tests; pick.
Qed.

Ltac compute_class :=
  repeat match goal with
    | |- context [Z.land ?c 7] =>
        let v := eval vm_compute in (Z.land c 7) in
        change (Z.land c 7) with v
    | |- context [acceptRanges ?i] =>
        let v := eval vm_compute in (acceptRanges i) in
        change (acceptRanges i) with v
    end;
  cbn [lo hi].

Ltac open_decode Hf :=
  unfold decode_at; rewrite Hf;
  unfold as_, xx, s1, s2, s3, s4, s5, s6, s7, locb, hicb;
  compute_class; cbv zeta.

(** A decoding that is not an error is one of the three multi-byte
    forms. *)
Lemma decode_at_valid n b0 b1 b2 b3 r k :
  1 <= n -> 0x80 <= b0 ->
  decode_at n b0 b1 b2 b3 = (r, k) ->
  ~ (r = RuneError /\ k = 1) ->
  (k = 2 /\ 2 <= n /\ 0xC2 <= b0 <= 0xDF /\ 0x80 <= b1 <= 0xBF
   /\ r = rune2 b0 b1)
  \/ (k = 3 /\ 3 <= n /\ 0xE0 <= b0 <= 0xEF /\ 0x80 <= b1 <= 0xBF
      /\ 0x80 <= b2 <= 0xBF
      /\ (b0 = 0xE0 -> 0xA0 <= b1) /\ (b0 = 0xED -> b1 <= 0x9F)
      /\ r = rune3 b0 b1 b2)
  \/ (k = 4 /\ 4 <= n /\ 0xF0 <= b0 <= 0xF4 /\ 0x80 <= b1 <= 0xBF
      /\ 0x80 <= b2 <= 0xBF /\ 0x80 <= b3 <= 0xBF
      /\ (b0 = 0xF0 -> 0x90 <= b1) /\ (b0 = 0xF4 -> b1 <= 0x8F)
      /\ r = rune4 b0 b1 b2 b3).
Proof.
  intros Hn Hb0 Hd Hok. revert Hd.
  destruct (first_cases b0)
    as [[? Hf]|[[? Hf]|[[? Hf]|[[? Hf]|[[? Hf]|[[? Hf]|[[? Hf]|[[? Hf]|
        [[? Hf]|[? Hf]]]]]]]]]];
    open_decode Hf; decide_tests; intros [= <- <-];
    try (exfalso; apply Hok; split; reflexivity);
    try (exfalso; lia); pick.
Qed.

Lemma decode_at_2 n b0 b1 b2 b3 :
  2 <= n -> 0xC2 <= b0 <= 0xDF -> 0x80 <= b1 <= 0xBF ->
  decode_at n b0 b1 b2 b3 = (rune2 b0 b1, 2).
Proof.
  intros Hn H0 H1.
  destruct (first_cases b0)
    as [[? Hf]|[[? Hf]|[[? Hf]|[[? Hf]|[[? Hf]|[[? Hf]|[[? Hf]|[[? Hf]|
        [[? Hf]|[? Hf]]]]]]]]]];
    try (exfalso; lia).
  open_decode Hf; decide_tests; reflexivity.
Qed.

Lemma decode_at_3 n b0 b1 b2 b3 :
  3 <= n -> 0xE0 <= b0 <= 0xEF -> 0x80 <= b1 <= 0xBF -> 0x80 <= b2 <= 0xBF ->
  (b0 = 0xE0 -> 0xA0 <= b1) -> (b0 = 0xED -> b1 <= 0x9F) ->
  decode_at n b0 b1 b2 b3 = (rune3 b0 b1 b2, 3).
Proof.
  intros Hn H0 H1 H2 Hlo Hhi.
  destruct (first_cases b0)
    as [[? Hf]|[[? Hf]|[[? Hf]|[[? Hf]|[[? Hf]|[[? Hf]|[[? Hf]|[[? Hf]|
        [[? Hf]|[? Hf]]]]]]]]]];
    try (exfalso; lia);
    open_decode Hf; decide_tests; reflexivity.
Qed.

Lemma decode_at_4 n b0 b1 b2 b3 :
  4 <= n -> 0xF0 <= b0 <= 0xF4 -> 0x80 <= b1 <= 0xBF -> 0x80 <= b2 <= 0xBF ->
  0x80 <= b3 <= 0xBF ->
  (b0 = 0xF0 -> 0x90 <= b1) -> (b0 = 0xF4 -> b1 <= 0x8F) ->
  decode_at n b0 b1 b2 b3 = (rune4 b0 b1 b2 b3, 4).
Proof.
  intros Hn H0 H1 H2 H3 Hlo Hhi.
  destruct (first_cases b0)
    as [[? Hf]|[[? Hf]|[[? Hf]|[[? Hf]|[[? Hf]|[[? Hf]|[[? Hf]|[[? Hf]|
        [[? Hf]|[? Hf]]]]]]]]]];
    try (exfalso; lia);
    open_decode Hf; decide_tests; reflexivity.
Qed.

(** *** Strings *)

Lemma len_cons c t : len (String c t) = 1 + len t.
Proof. unfold len. cbn [String.length]. lia. Qed.

Lemma len_nil : len EmptyString = 0.
Proof. reflexivity. Qed.

Lemma len_nonneg s : 0 <= len s.
Proof. unfold len. lia. Qed.

Lemma len_app s t : len (s ++ t) = len s + len t.
Proof.
  induction s as [|c s IH]; [rewrite str_nil_app, len_nil; lia|].
  rewrite str_cons_app, !len_cons, IH. lia.
Qed.

Lemma str_take_drop n s : str_take n s ++ str_drop n s = s.
Proof.
  revert s. induction n as [|n IH]; intros [|c s]; try reflexivity.
  cbn [str_take str_drop]. by rewrite str_cons_app, IH.
Qed.

Lemma bytes1 c : bytes [byte_val c] = String c EmptyString.
Proof. unfold bytes. cbn [fold_right]. by rewrite byte_of_val. Qed.

(** A valid multi-byte rune at the start of [s]: its width, its bytes,
    and what follows does not matter. *)
Lemma decode_valid_prefix s r k :
  0x80 <= at_ s 0 ->
  DecodeRuneInString s = (r, k) ->
  ~ (r = RuneError /\ k = 1) ->
  exists p,
    (2 <= k <= 4) /\ len p = k
    /\ s = p ++ str_drop (Z.to_nat k) s
    /\ EncodeRune r = p
    /\ forall t, DecodeRuneInString (p ++ t) = (r, k).
Proof.
  intros Hb0 Hd Hok. unfold DecodeRuneInString in Hd.
  destruct s as [|c0 s]; [cbn in Hb0; lia|].
  assert (1 <= len (String c0 s)) as Hn
    by (rewrite len_cons; pose proof (len_nonneg s); lia).
  change (at_ (String c0 s) 0) with (byte_val c0) in *.
  pose proof (byte_val_range c0) as R0.
  destruct (decode_at_valid _ _ _ _ _ _ _ Hn Hb0 Hd Hok)
    as [(-> & Hlen & H0 & H1 & ->)
       |[(-> & Hlen & H0 & H1 & H2 & Hlo & Hhi & ->)
        |(-> & Hlen & H0 & H1 & H2 & H3 & Hlo & Hhi & ->)]].
  - destruct s as [|c1 s]; [rewrite len_cons, len_nil in Hlen; lia|].
    change (at_ (String c0 (String c1 s)) 1) with (byte_val c1) in *.
    exists (String c0 (String c1 EmptyString)).
    split; [lia|]. split; [reflexivity|]. split; [reflexivity|].
    split.
    + rewrite encode_rune2 by lia. unfold bytes. cbn [fold_right].
      by rewrite !byte_of_val.
    + intros t. unfold DecodeRuneInString.
      rewrite !str_cons_app, str_nil_app.
      change (at_ (String c0 (String c1 t)) 0) with (byte_val c0).
      change (at_ (String c0 (String c1 t)) 1) with (byte_val c1).
      apply decode_at_2; try lia.
      rewrite !len_cons. pose proof (len_nonneg t). lia.
  - destruct s as [|c1 [|c2 s]];
      [rewrite ?len_cons, len_nil in Hlen; lia ..|].
    change (at_ (String c0 (String c1 (String c2 s))) 1)
      with (byte_val c1) in *.
    change (at_ (String c0 (String c1 (String c2 s))) 2)
      with (byte_val c2) in *.
    exists (String c0 (String c1 (String c2 EmptyString))).
    split; [lia|]. split; [reflexivity|]. split; [reflexivity|].
    split.
    + rewrite encode_rune3 by (lia || assumption). unfold bytes.
      cbn [fold_right]. by rewrite !byte_of_val.
    + intros t. unfold DecodeRuneInString.
      rewrite !str_cons_app, str_nil_app.
      change (at_ (String c0 (String c1 (String c2 t))) 0)
        with (byte_val c0).
      change (at_ (String c0 (String c1 (String c2 t))) 1)
        with (byte_val c1).
      change (at_ (String c0 (String c1 (String c2 t))) 2)
        with (byte_val c2).
      apply decode_at_3; try (lia || assumption).
      rewrite !len_cons. pose proof (len_nonneg t). lia.
  - destruct s as [|c1 [|c2 [|c3 s]]];
      [rewrite ?len_cons, len_nil in Hlen; lia ..|].
    change (at_ (String c0 (String c1 (String c2 (String c3 s)))) 1)
      with (byte_val c1) in *.
    change (at_ (String c0 (String c1 (String c2 (String c3 s)))) 2)
      with (byte_val c2) in *.
    change (at_ (String c0 (String c1 (String c2 (String c3 s)))) 3)
      with (byte_val c3) in *.
    exists (String c0 (String c1 (String c2 (String c3 EmptyString)))).
    split; [lia|]. split; [reflexivity|]. split; [reflexivity|].
    split.
    + rewrite encode_rune4 by (lia || assumption). unfold bytes.
      cbn [fold_right]. by rewrite !byte_of_val.
    + intros t. unfold DecodeRuneInString.
      rewrite !str_cons_app, str_nil_app.
      change (at_ (String c0 (String c1 (String c2 (String c3 t)))) 0)
        with (byte_val c0).
      change (at_ (String c0 (String c1 (String c2 (String c3 t)))) 1)
        with (byte_val c1).
      change (at_ (String c0 (String c1 (String c2 (String c3 t)))) 2)
        with (byte_val c2).
      change (at_ (String c0 (String c1 (String c2 (String c3 t)))) 3)
        with (byte_val c3).
      apply decode_at_4; try (lia || assumption).
      rewrite !len_cons. pose proof (len_nonneg t). lia.
Qed.

End utf8_facts.

(* ===================================================================== *)
(** ** JSON strings: what [appendString] writes, [unquote_loop] reads *)
(* ===================================================================== *)

Section json_string_facts.
Import json.

Lemma unquote_close fd rest :
  unquote_loop (S fd) (dquote ++ rest) = Some (EmptyString, rest).
Proof. reflexivity. Qed.

(** One iteration on an ASCII byte written as it is. *)
Lemma unquote_safe c fd X :
  byte_val c < 0x80 -> htmlSafeSet (byte_val c) = true ->
  unquote_loop (S fd) (String c X) =
  prepend (String c EmptyString) (unquote_loop fd X).
Proof.
  destruct c as [[] [] [] [] [] [] [] []]; intros H1 H2;
    try (exfalso; vm_compute in H1; discriminate H1);
    try (exfalso; vm_compute in H2; discriminate H2);
    reflexivity.
Qed.

(** One iteration on an escaped ASCII byte. *)
Lemma unquote_escape c fd X :
  byte_val c < 0x80 -> htmlSafeSet (byte_val c) = false ->
  unquote_loop (S fd) (escape (byte_val c) ++ X) =
  prepend (String c EmptyString) (unquote_loop fd X).
Proof.
  destruct c as [[] [] [] [] [] [] [] []]; intros H1 H2;
    try (exfalso; vm_compute in H1; discriminate H1);
    try (exfalso; vm_compute in H2; discriminate H2);
    reflexivity.
Qed.

(** One iteration on a byte that starts a multi-byte rune. *)
Lemma unquote_multibyte c fd X :
  0x80 <= byte_val c ->
  unquote_loop (S fd) (String c X) =
  let '(rr, size) := utf8.DecodeRuneInString (String c X) in
  prepend (utf8.EncodeRune rr)
          (unquote_loop fd (str_drop (Z.to_nat size) (String c X))).
Proof.
  destruct c as [[] [] [] [] [] [] [] []]; intros H1;
    try (exfalso; vm_compute in H1; by apply H1);
    reflexivity.
Qed.

(** One iteration on the escape of U+2028 or U+2029. *)
Lemma unquote_u202x r fd X :
  r = 0x2028 \/ r = 0x2029 ->
  unquote_loop (S fd) (bslash ++ "u202" ++ hex_at (Z.land r 0xF) ++ X) =
  prepend (utf8.EncodeRune r) (unquote_loop fd X).
Proof. intros [-> | ->]; reflexivity. Qed.

Lemma str_length_app s t :
  String.length (s ++ t) = (String.length s + String.length t)%nat.
Proof.
  induction s as [|c s IH]; [reflexivity|].
  rewrite str_cons_app. cbn [String.length]. by rewrite IH.
Qed.

Lemma str_take_app p t n :
  (String.length p <= n)%nat ->
  str_take n (p ++ t) = p ++ str_take (n - String.length p) t.
Proof.
  revert n. induction p as [|c p IH]; intros n Hn.
  - rewrite !str_nil_app. cbn [String.length]. by rewrite Nat.sub_0_r.
  - cbn [String.length] in *. destruct n as [|n]; [lia|].
    rewrite !str_cons_app. cbn [str_take]. rewrite IH by lia.
    reflexivity.
Qed.

Lemma str_take_length_app p t : str_take (String.length p) (p ++ t) = p.
Proof.
  rewrite str_take_app by lia. rewrite Nat.sub_diag.
  destruct t; cbn [str_take]; apply str_app_nil_r.
Qed.

Lemma str_drop_length_app p t : str_drop (String.length p) (p ++ t) = t.
Proof.
  induction p as [|c p IH]; [by destruct t|].
  rewrite str_cons_app. cbn [String.length str_drop]. exact IH.
Qed.

Lemma len_length s : Z.to_nat (len s) = String.length s.
Proof. unfold len. lia. Qed.

Lemma appendString_loop_cons f c t :
  appendString_loop (S f) (String c t) =
  let src := String c t in
  let b := byte_val c in
  if b <? utf8.RuneSelf then
    if htmlSafeSet b then String c (appendString_loop f t)
    else escape b ++ appendString_loop f t
  else
    let n := Z.min (len src) utf8.UTFMax in
    let '(r, size) := utf8.DecodeRuneInString (str_take (Z.to_nat n) src) in
    if (r =? utf8.RuneError) && (size =? 1) then
      bslash ++ "ufffd" ++ appendString_loop f t
    else if (r =? 0x2028) || (r =? 0x2029) then
      bslash ++ "u202" ++ hex_at (Z.land r 0xF)
        ++ appendString_loop f (str_drop (Z.to_nat size) src)
    else
      str_take (Z.to_nat size) src
        ++ appendString_loop f (str_drop (Z.to_nat size) src).
Proof. reflexivity. Qed.

Lemma valid_fuel_cons f c t :
  utf8.valid_fuel (S f) (String c t) =
  if byte_val c <? utf8.RuneSelf then utf8.valid_fuel f t
  else
    let '(r, size) := utf8.DecodeRuneInString (String c t) in
    if (r =? utf8.RuneError) && (size =? 1) then false
    else utf8.valid_fuel f (str_drop (Z.to_nat size) (String c t)).
Proof. reflexivity. Qed.

Lemma prepend_some p v rest :
  prepend p (Some (v, rest)) = Some (p ++ v, rest).
Proof. reflexivity. Qed.

(** The decoder reads back what the encoder wrote for valid UTF-8. *)
Lemma unquote_appendString_loop f :
  forall s fd rest,
    (String.length s <= f)%nat ->
    utf8.valid_fuel f s = true ->
    (String.length s < fd)%nat ->
    unquote_loop fd (appendString_loop f s ++ dquote ++ rest) = Some (s, rest).
Proof.
  induction f as [|f IH]; intros s fd rest Hlen Hvalid Hfd.
  { destruct s as [|c t]; [|cbn [String.length] in Hlen; lia].
    destruct fd as [|fd]; [cbn [String.length] in Hfd; lia|].
    cbn [appendString_loop]. rewrite str_nil_app. apply unquote_close. }
  destruct s as [|c t].
  { destruct fd as [|fd]; [cbn [String.length] in Hfd; lia|].
    cbn [appendString_loop]. rewrite str_nil_app. apply unquote_close. }
  cbn [String.length] in Hlen, Hfd.
  destruct fd as [|fd]; [lia|].
  rewrite appendString_loop_cons. rewrite valid_fuel_cons in Hvalid.
  cbv zeta.
  destruct (Z.ltb_spec (byte_val c) utf8.RuneSelf) as [Hascii | Hmulti].
  - (* one ASCII byte *)
    destruct (htmlSafeSet (byte_val c)) eqn:Hsafe.
    + rewrite str_cons_app, unquote_safe by assumption.
      rewrite IH by (assumption || lia). reflexivity.
    + rewrite str_app_assoc, unquote_escape by assumption.
      rewrite IH by (assumption || lia). reflexivity.
  - (* a multi-byte rune *)
    unfold utf8.RuneSelf in Hmulti.
    destruct (utf8.DecodeRuneInString (String c t)) as [r k] eqn:Hd.
    destruct ((r =? utf8.RuneError) && (k =? 1)) eqn:Herr; [discriminate|].
    assert (~ (r = utf8.RuneError /\ k = 1)) as Hok.
    { intros [-> ->]. discriminate Herr. }
    destruct (decode_valid_prefix (String c t) r k Hmulti Hd Hok)
      as (p & Hk & Hp & Hs & Henc & Hany).
    assert (String.length p = Z.to_nat k) as Hpl
      by (rewrite <- Hp; symmetry; apply len_length).
    remember (str_drop (Z.to_nat k) (String c t)) as s' eqn:Hs'.
    assert (String.length (String c t)
            = (String.length p + String.length s')%nat) as Hsl
      by (rewrite Hs at 1; apply str_length_app).
    cbn [String.length] in Hsl.
    (* the encoder decodes the same rune from the first four bytes *)
    assert (utf8.DecodeRuneInString
              (str_take (Z.to_nat (Z.min (len (String c t)) utf8.UTFMax))
                        (String c t)) = (r, k)) as Hd4.
    { rewrite Hs at 2. rewrite str_take_app.
      - apply Hany.
      - rewrite len_cons. unfold utf8.UTFMax, len in *. lia. }
    rewrite Hd4, Herr, <- !Hs'.
    assert (str_take (Z.to_nat k) (String c t) = p) as Htake.
    { rewrite Hs, <- Hpl. apply str_take_length_app. }
    destruct ((r =? 0x2028) || (r =? 0x2029)) eqn:Hls.
    + apply orb_true_iff in Hls. rewrite !Z.eqb_eq in Hls.
      rewrite !str_app_assoc.
      rewrite unquote_u202x by assumption.
      rewrite IH by (assumption || lia).
      rewrite Henc, prepend_some. by rewrite <- Hs.
    + rewrite Htake, str_app_assoc.
      destruct p as [|c0 p']; [cbn [String.length] in Hpl; lia|].
      assert (c0 = c) as ->.
      { rewrite str_cons_app in Hs. by injection Hs as ->. }
      rewrite str_cons_app, unquote_multibyte by lia.
      rewrite <- !str_cons_app, Hany.
      rewrite <- Hpl, str_drop_length_app.
      rewrite IH by (assumption || lia).
      rewrite Henc, prepend_some. by rewrite <- Hs.
Qed.

Lemma escape_length b : (1 <= String.length (escape b))%nat.
Proof.
  unfold escape.
  repeat match goal with
    | |- context [if ?c then _ else _] => destruct c
    end;
    rewrite str_length_app; cbn [String.length bslash]; lia.
Qed.

(** The encoder never writes less than it reads. *)
Lemma appendString_loop_length f :
  forall s,
    (String.length s <= f)%nat ->
    utf8.valid_fuel f s = true ->
    (String.length s <= String.length (appendString_loop f s))%nat.
Proof.
  induction f as [|f IH]; intros s Hlen Hvalid.
  { destruct s; cbn [String.length] in *; lia. }
  destruct s as [|c t]; [cbn [String.length]; lia|].
  cbn [String.length] in Hlen.
  rewrite appendString_loop_cons. rewrite valid_fuel_cons in Hvalid.
  cbv zeta.
  destruct (Z.ltb_spec (byte_val c) utf8.RuneSelf) as [Hascii | Hmulti].
  - specialize (IH t ltac:(lia) Hvalid).
    destruct (htmlSafeSet (byte_val c)).
    + cbn [String.length]. lia.
    + rewrite str_length_app. pose proof (escape_length (byte_val c)).
      cbn [String.length]. lia.
  - unfold utf8.RuneSelf in Hmulti.
    destruct (utf8.DecodeRuneInString (String c t)) as [r k] eqn:Hd.
    destruct ((r =? utf8.RuneError) && (k =? 1)) eqn:Herr; [discriminate|].
    assert (~ (r = utf8.RuneError /\ k = 1)) as Hok.
    { intros [-> ->]. discriminate Herr. }
    destruct (decode_valid_prefix (String c t) r k Hmulti Hd Hok)
      as (p & Hk & Hp & Hs & Henc & Hany).
    assert (String.length p = Z.to_nat k) as Hpl
      by (rewrite <- Hp; symmetry; apply len_length).
    remember (str_drop (Z.to_nat k) (String c t)) as s' eqn:Hs'.
    assert (String.length (String c t)
            = (String.length p + String.length s')%nat) as Hsl
      by (rewrite Hs at 1; apply str_length_app).
    cbn [String.length] in Hsl.
    assert (utf8.DecodeRuneInString
              (str_take (Z.to_nat (Z.min (len (String c t)) utf8.UTFMax))
                        (String c t)) = (r, k)) as Hd4.
    { rewrite Hs at 2. rewrite str_take_app.
      - apply Hany.
      - rewrite len_cons. unfold utf8.UTFMax, len in *. lia. }
    rewrite Hd4, Herr, <- !Hs'.
    specialize (IH s' ltac:(lia) Hvalid).
    destruct ((r =? 0x2028) || (r =? 0x2029)).
    + rewrite !str_length_app. cbn [String.length bslash]. lia.
    + assert (str_take (Z.to_nat k) (String c t) = p) as ->.
      { rewrite Hs, <- Hpl. apply str_take_length_app. }
      rewrite str_length_app. cbn [String.length]. lia.
Qed.

Lemma strip_prefix_app p X : strip_prefix p (p ++ X) = Some X.
Proof.
  induction p as [|c p IH]; [by destruct X|].
  rewrite str_cons_app. cbn [strip_prefix]. by rewrite Ascii.eqb_refl.
Qed.

(** A quoted string is read back as a value. *)
Lemma parse_value_string item rest :
  utf8.ValidString item = true ->
  parse_value (appendString item ++ rest) = Some (VString item, rest).
Proof.
  intros Hvalid. unfold appendString, utf8.ValidString in *.
  rewrite !str_app_assoc.
  change (dquote ++ appendString_loop (String.length item) item
            ++ dquote ++ rest)
    with (String "034"%char
            (appendString_loop (String.length item) item ++ dquote ++ rest)).
  unfold parse_value.
  change (byte_val "034"%char =? ch "034") with true. cbv iota.
  rewrite unquote_appendString_loop; [reflexivity|lia|assumption|].
  pose proof (appendString_loop_length _ item (le_n _) Hvalid).
  cbn [String.length]. rewrite str_length_app. lia.
Qed.

Lemma parse_value_bool b rest :
  parse_value (appendBool b ++ rest) = Some (VBool b, rest).
Proof. destruct b; reflexivity. Qed.

(** A key without escapes is read back as it is. *)
Lemma unquote_key key rest :
  utf8.ValidString key = true ->
  appendString_loop (String.length key) key = key ->
  unquote_loop (String.length (key ++ dquote ++ rest))
               (key ++ dquote ++ rest) = Some (key, rest).
Proof.
  intros Hvalid Hplain.
  pose proof (unquote_appendString_loop (String.length key) key
                (String.length (key ++ dquote ++ rest)) rest) as H.
  rewrite Hplain in H. apply H; [lia|exact Hvalid|].
  rewrite !str_length_app. cbn [String.length dquote]. lia.
Qed.

Lemma members_succ f s v :
  members (S f) s v =
  match strip_prefix dquote s with
  | None => syntax
  | Some s1 =>
      match unquote_loop (String.length s1) s1 with
      | None => syntax
      | Some (key, s2) =>
          match strip_prefix ":" (skip_space s2) with
          | None => syntax
          | Some s3 =>
              match parse_value (skip_space s3) with
              | None => syntax
              | Some (x, s4) =>
                  match set_field key x v with
                  | inr e => inr e
                  | inl v' =>
                      let s5 := skip_space s4 in
                      match strip_prefix "," s5 with
                      | Some s6 => members f (skip_space s6) v'
                      | None =>
                          match strip_prefix "}" s5 with
                          | Some s6 =>
                              match skip_space s6 with
                              | EmptyString => inl v'
                              | _ => syntax
                              end
                          | None => syntax
                          end
                      end
                  end
              end
          end
      end
  end.
Proof. reflexivity. Qed.

(** One member followed by a comma. *)
Lemma members_more f key valtext x rest v v' :
  utf8.ValidString key = true ->
  appendString_loop (String.length key) key = key ->
  skip_space (valtext ++ "," ++ dquote ++ rest) =
    valtext ++ "," ++ dquote ++ rest ->
  parse_value (valtext ++ "," ++ dquote ++ rest) =
    Some (x, "," ++ dquote ++ rest) ->
  set_field key x v = inl v' ->
  members (S f)
    (dquote ++ key ++ dquote ++ ":" ++ valtext ++ "," ++ dquote ++ rest) v =
  members f (dquote ++ rest) v'.
Proof.
  intros Hvalid Hplain Hskip Hparse Hset.
  rewrite members_succ, strip_prefix_app.
  rewrite unquote_key by assumption.
  change (skip_space (":" ++ valtext ++ "," ++ dquote ++ rest))
    with (":" ++ valtext ++ "," ++ dquote ++ rest).
  rewrite strip_prefix_app, Hskip, Hparse, Hset.
  reflexivity.
Qed.

(** The last member, followed by the closing brace. *)
Lemma members_last f key valtext x v v' :
  utf8.ValidString key = true ->
  appendString_loop (String.length key) key = key ->
  skip_space (valtext ++ "}") = valtext ++ "}" ->
  parse_value (valtext ++ "}") = Some (x, "}") ->
  set_field key x v = inl v' ->
  members (S f) (dquote ++ key ++ dquote ++ ":" ++ valtext ++ "}") v = inl v'.
Proof.
  intros Hvalid Hplain Hskip Hparse Hset.
  rewrite members_succ, strip_prefix_app.
  rewrite unquote_key by assumption.
  change (skip_space (":" ++ valtext ++ "}")) with (":" ++ valtext ++ "}").
  rewrite strip_prefix_app, Hskip, Hparse, Hset.
  reflexivity.
Qed.

Lemma skip_space_bool b rest :
  skip_space (appendBool b ++ rest) = appendBool b ++ rest.
Proof. by destruct b. Qed.

Lemma skip_space_string item rest :
  skip_space (appendString item ++ rest) = appendString item ++ rest.
Proof. reflexivity. Qed.

(** Decoding an encoded record whose item is valid UTF-8 gives the record
    back, whatever the struct held before. *)
Lemma Unmarshal_encode o v :
  utf8.ValidString (Item o) = true ->
  Unmarshal (encode o) v = inl o.
Proof.
  intros Hvalid. unfold Unmarshal, encode.
  change (skip_space ("{" ++ ?x)) with ("{" ++ x).
  rewrite strip_prefix_app.
  set (rest3 := "isChecked" ++ dquote ++ ":" ++ appendBool (IsChecked o)
                  ++ "}").
  set (rest2 := "isUpdated" ++ dquote ++ ":" ++ appendBool (IsUpdated o)
                  ++ "," ++ dquote ++ rest3).
  set (s2 := dquote ++ "item" ++ dquote ++ ":" ++ appendString (Item o)
               ++ "," ++ dquote ++ rest2).
  change (skip_space s2) with s2.
  change (strip_prefix "}" s2) with (@None string). cbv iota.
  assert (exists f, String.length s2 = S (S (S f))) as [f ->].
  { subst s2. rewrite !str_length_app. cbn [String.length dquote].
    eexists. reflexivity. }
  subst s2.
  rewrite (members_more _ "item" _ (VString (Item o)) rest2 v
             {| Item := Item o; IsUpdated := IsUpdated v;
                IsChecked := IsChecked v |});
    [| reflexivity | reflexivity | apply skip_space_string
     | by apply parse_value_string | reflexivity ].
  subst rest2.
  rewrite (members_more _ "isUpdated" _ (VBool (IsUpdated o)) rest3 _
             {| Item := Item o; IsUpdated := IsUpdated o;
                IsChecked := IsChecked v |});
    [| reflexivity | reflexivity | apply skip_space_bool
     | apply parse_value_bool | reflexivity ].
  subst rest3.
  rewrite (members_last _ "isChecked" _ (VBool (IsChecked o)) _
             {| Item := Item o; IsUpdated := IsUpdated o;
                IsChecked := IsChecked o |});
    [| reflexivity | reflexivity | apply skip_space_bool
     | apply parse_value_bool | reflexivity ].
  by destruct o.
Qed.

End json_string_facts.

(* ===================================================================== *)
(** ** Round trip of the record through JSON *)
(* ===================================================================== *)

(** C9, as stated, fails on a record whose item is not valid UTF-8:
    [Marshal] writes U+FFFD for the byte 0xFF, so the decoded item is the
    three bytes of U+FFFD and not the original byte. *)
Lemma invalid_utf8_item_does_not_round_trip :
  snd (json.Marshal roundtrip.broken) = None
  /\ json.Unmarshal (fst (json.Marshal roundtrip.broken)) roundtrip.zero =
     inl {| Item := bytes [0xEF; 0xBF; 0xBD]; IsUpdated := false;
            IsChecked := false |}
  /\ Item roundtrip.broken <> bytes [0xEF; 0xBF; 0xBD].
Proof. repeat split. discriminate. Qed.

(** C9, amended. For every record whose item is valid UTF-8, [Marshal]
    succeeds and [Unmarshal] of its output, into a struct holding
    anything, yields a record with the same item, the same [isUpdated] and
    the same [isChecked]. *)
Theorem valid_utf8_record_round_trips (o v : CustomObject) :
  utf8.ValidString (Item o) = true ->
  snd (json.Marshal o) = None
  /\ exists o',
       json.Unmarshal (fst (json.Marshal o)) v = inl o'
       /\ Item o' = Item o
       /\ IsUpdated o' = IsUpdated o
       /\ IsChecked o' = IsChecked o.
Proof.
  intros Hvalid. split; [reflexivity|].
  exists o. cbn [json.Marshal fst].
  by rewrite Unmarshal_encode.
Qed.

Lemma valid_utf8_record_round_trips_witness :
  snd (json.Marshal roundtrip.mixed) = None
  /\ exists o',
       json.Unmarshal (fst (json.Marshal roundtrip.mixed)) roundtrip.zero =
       inl o'
       /\ Item o' = Item roundtrip.mixed
       /\ IsUpdated o' = IsUpdated roundtrip.mixed
       /\ IsChecked o' = IsChecked roundtrip.mixed.
Proof.
  apply (valid_utf8_record_round_trips roundtrip.mixed roundtrip.zero).
  reflexivity.
Defined.

(* ===================================================================== *)
(** ** More on main.go *)
(* ===================================================================== *)

(** X1. When the storage write is accepted, the Go handler answers 200
    with the marshalled bytes, appends [http.status_code = 200] to the
    attributes of the root span and attaches [LambdaCreateEvent] with
    [is.successful = true] and the configured bucket; the client span
    carries no error attribute. *)
Theorem write_success_response_and_spans req w i :
  issued (create.calls w) (create.calls (snd (create.handler req w)))
  = [(i, None)] ->
  let '(resp, _, w') := create.handler req w in
  resp = {| create.StatusCode := 200; create.Body := scenario_A_body |}
  /\ exists root child,
       create.spans w' = (create.spans w ++ [root; child])%list
       /\ trace.attributes root =
          (trace.attributes (create_obs.root_started req w)
             ++ [semconv.HTTPStatusCode 200])%list
       /\ trace.events root =
          [ {| trace.event_name := "LambdaCreateEvent";
               trace.event_attributes :=
                 [ attribute.Bool_ "is.successful" true;
                   attribute.String_ "bucket.id"
                     (create.INPUT_S3_BUCKET_NAME w) ] |} ]
       /\ trace.attributes child = [ semconv.NetTransportTCP ]
       /\ trace.events child = [].
Proof.
  rewrite handler_run.
  destruct (s3.put _ (create.uploader w)) as [err u].
  cbn [snd create_obs.after_store create.calls create.spans].
  rewrite issued_app. cbn. intros [= _ ->].
  split; [reflexivity|]. do 2 eexists. repeat split.
Qed.

Lemma write_success_response_and_spans_witness :
  let '(resp, _, w') := create.handler scenario.request (scenario.go 7) in
  resp = {| create.StatusCode := 200; create.Body := scenario_A_body |}
  /\ exists root child,
       create.spans w' = (create.spans (scenario.go 7) ++ [root; child])%list
       /\ trace.attributes root =
          (trace.attributes
             (create_obs.root_started scenario.request (scenario.go 7))
             ++ [semconv.HTTPStatusCode 200])%list
       /\ trace.events root =
          [ {| trace.event_name := "LambdaCreateEvent";
               trace.event_attributes :=
                 [ attribute.Bool_ "is.successful" true;
                   attribute.String_ "bucket.id"
                     (create.INPUT_S3_BUCKET_NAME (scenario.go 7)) ] |} ]
       /\ trace.attributes child = [ semconv.NetTransportTCP ]
       /\ trace.events child = [].
Proof.
  apply (write_success_response_and_spans scenario.request (scenario.go 7)
           {| s3.Bucket := Some "otel-input";
              s3.Key := Some "1700000000123";
              s3.Body := scenario_A_body |}).
  reflexivity.
Defined.


(** X3. In every invocation that reaches the write, the span
    [S3.PutObject] of kind client is the child of the span [main.handler]
    of kind server, which has no parent; both are made by the same
    tracer, named after [OTEL_SERVICE_NAME] when that is not empty and
    [go.opentelemetry.io/otel/sdk/tracer], the default name of the SDK,
    when it is. *)
Theorem client_span_is_child_of_root req w :
  let w' := snd (create.handler req w) in
  let id := length (create.spans w) in
  exists root child,
    create.spans w' !! id = Some root
    /\ create.spans w' !! S id = Some child
    /\ trace.name root = "main.handler"
    /\ trace.kind root = trace.SpanKindServer
    /\ trace.parent root = None
    /\ trace.name child = "S3.PutObject"
    /\ trace.kind child = trace.SpanKindClient
    /\ trace.parent child = Some id
    /\ trace.tracer root
       = (if bool_decide (create.OTEL_SERVICE_NAME w = EmptyString)
          then "go.opentelemetry.io/otel/sdk/tracer"
          else create.OTEL_SERVICE_NAME w)
    /\ trace.tracer child = trace.tracer root.
Proof.
  assert (Hname : forall n, trace.tracer_name n
            = if bool_decide (n = EmptyString)
              then "go.opentelemetry.io/otel/sdk/tracer" else n)
    by (by intros [|c n]).
  cbv zeta. rewrite handler_run.
  destruct (s3.put _ (create.uploader w)) as [[e|] u];
    cbn [snd create_obs.after_store create.spans];
    (do 2 eexists; split; [apply lookup_snoc2|];
     split; [apply lookup_snoc2'|]; repeat split; apply Hname).
Qed.

(** X4. The request reaches nothing but the attributes of the root span:
    two invocations that differ only in the request give the same
    response, make the same calls, leave the same store, generator and
    output, and the same client span. *)
Theorem request_only_reaches_root_span req1 req2 w :
  let '(r1, w1) := create.handler req1 w in
  let '(r2, w2) := create.handler req2 w in
  r1 = r2
  /\ create.calls w1 = create.calls w2
  /\ create.uploader w1 = create.uploader w2
  /\ create.randomizer w1 = create.randomizer w2
  /\ create.stdout w1 = create.stdout w2
  /\ create.spans w1 !! S (length (create.spans w))
     = create.spans w2 !! S (length (create.spans w)).
Proof.
  rewrite !handler_run.
  destruct (s3.put _ (create.uploader w)) as [err u].
  cbn [create_obs.after_store create.calls create.uploader create.randomizer
       create.stdout create.spans].
  repeat split. by rewrite !lookup_snoc2'.
Qed.

(** X5. A header the request does not carry gives the empty string as the
    value of its attribute on the root span: [http.scheme] for
    [X-Forwarded-Proto], [http.user_agent] for [User-Agent],
    [net.host.name] for [Host]; the handler goes on as usual. *)
Theorem missing_header_gives_empty_attribute req w :
  create.Headers req !! "X-Forwarded-Proto" = None ->
  create.Headers req !! "User-Agent" = None ->
  create.Headers req !! "Host" = None ->
  exists root,
    create.spans (snd (create.handler req w)) !! length (create.spans w)
    = Some root
    /\ In (semconv.HTTPScheme EmptyString) (trace.attributes root)
    /\ In (semconv.HTTPUserAgent EmptyString) (trace.attributes root)
    /\ In (semconv.NetHostName EmptyString) (trace.attributes root)
    /\ In (semconv.HTTPMethod (create.HTTPMethod req)) (trace.attributes root)
    /\ In (semconv.HTTPRoute (create.Resource req)) (trace.attributes root)
    /\ In (semconv.HTTPTarget (create.Resource req)) (trace.attributes root).
Proof.
  intros Hs Hu Hh. rewrite handler_run.
  destruct (s3.put _ (create.uploader w)) as [err u].
  cbn [snd create_obs.after_store create.spans].
  eexists. split; [apply lookup_snoc2|].
  unfold create_obs.root_final, create_obs.root_started, create.index.
  rewrite Hs, Hu, Hh. cbn. tauto.
Qed.

Lemma missing_header_gives_empty_attribute_witness :
  exists root,
    create.spans
      (snd (create.handler more_scenario.bare_request (scenario.go 7)))
      !! length (create.spans (scenario.go 7))
    = Some root
    /\ In (semconv.HTTPScheme EmptyString) (trace.attributes root)
    /\ In (semconv.HTTPUserAgent EmptyString) (trace.attributes root)
    /\ In (semconv.NetHostName EmptyString) (trace.attributes root)
    /\ In (semconv.HTTPMethod
             (create.HTTPMethod more_scenario.bare_request))
          (trace.attributes root)
    /\ In (semconv.HTTPRoute (create.Resource more_scenario.bare_request))
          (trace.attributes root)
    /\ In (semconv.HTTPTarget (create.Resource more_scenario.bare_request))
          (trace.attributes root).
Proof.
  apply (missing_header_gives_empty_attribute more_scenario.bare_request
           (scenario.go 7)); reflexivity.
Defined.

(** X6. An invocation never changes the configuration: service name,
    bucket name, clock, the source of the generator and the answers of the
    store stay as they were; the generator advances by one draw, or by
    none when serialization failed; output and call log only grow. *)
Theorem handler_keeps_configuration Marshal req w :
  let w' := snd (create.handler_with Marshal req w) in
  create.OTEL_SERVICE_NAME w' = create.OTEL_SERVICE_NAME w
  /\ create.INPUT_S3_BUCKET_NAME w' = create.INPUT_S3_BUCKET_NAME w
  /\ create.clock w' = create.clock w
  /\ rand.source (create.randomizer w') = rand.source (create.randomizer w)
  /\ s3.respond (create.uploader w') = s3.respond (create.uploader w)
  /\ rand.consumed (create.randomizer w') =
     (rand.consumed (create.randomizer w)
      + (if snd (Marshal create_obs.body0) is Some _ then 0 else 1))%nat
  /\ extends (create.stdout w) (create.stdout w')
  /\ extends (create.calls w) (create.calls w').
Proof.
  cbv zeta. rewrite handler_with_run.
  destruct (Marshal create_obs.body0) as [jsonBody [me|]].
  - cbn. repeat split; [lia | by eexists | exists []; by rewrite app_nil_r].
  - destruct (s3.put _ (create.uploader w)) as [err u] eqn:Hput.
    cbn. repeat split; try lia; try (by eexists).
    unfold s3.put in Hput.
    destruct (s3.respond (create.uploader w) _); [by injection Hput as _ <-|].
    cbn in Hput. by injection Hput as _ <-.
Qed.

(** X7. Every invocation that reaches the write prints two lines, the
    announcement and then the outcome, and the outcome line says
    [succeeded] exactly when the response is 200. *)
Theorem stdout_matches_outcome req w :
  let '(resp, _, w') := create.handler req w in
  exists outcome,
    create.stdout w' =
      (create.stdout w ++ ["Storing custom object into S3..."; outcome])%list
    /\ (create.StatusCode resp = 200 <->
        outcome = "Storing custom object into S3 is succeeded.")
    /\ (create.StatusCode resp = 500 <->
        outcome = "Storing custom object into S3 is failed.").
Proof.
  rewrite handler_run.
  destruct (s3.put _ (create.uploader w)) as [[e|] u];
    cbn [create_obs.after_store create.stdout create.StatusCode];
    (eexists; split; [reflexivity|]); cbn; split; split;
    (reflexivity || discriminate).
Qed.


(** X8. The injected fault is only a change of bucket: when the draw is
    the sentinel and the store accepts the write to [wrong-bucket-name]
    all the same, the handler answers 200, the record lies in that bucket
    under the timestamp key, and the configured bucket (if it is another
    one) has received nothing. *)
Theorem injection_succeeds_if_wrong_bucket_accepts req w :
  create_obs.draw w = 1 ->
  s3.respond (create.uploader w)
    (create_obs.request create_obs.payload w) = None ->
  create.INPUT_S3_BUCKET_NAME w <> "wrong-bucket-name" ->
  let '(resp, _, w') := create.handler req w in
  let key := strconv.FormatInt (create.clock w) in
  create.StatusCode resp = 200
  /\ s3.objects (create.uploader w') !! ("wrong-bucket-name", key)
     = Some scenario_A_body
  /\ s3.objects (create.uploader w')
       !! (create.INPUT_S3_BUCKET_NAME w, key)
     = s3.objects (create.uploader w)
         !! (create.INPUT_S3_BUCKET_NAME w, key).
Proof.
  intros Hd Hr Hne. rewrite handler_run.
  unfold s3.put. rewrite Hr.
  unfold create_obs.request at 1 2. rewrite Hd.
  cbn. split; [reflexivity|]. split.
  - by rewrite lookup_insert_eq.
  - rewrite lookup_insert_ne; [reflexivity|congruence].
Qed.

Lemma injection_succeeds_if_wrong_bucket_accepts_witness :
  let w := more_scenario.go_on more_scenario.open_store 1 in
  let '(resp, _, w') := create.handler scenario.request w in
  let key := strconv.FormatInt (create.clock w) in
  create.StatusCode resp = 200
  /\ s3.objects (create.uploader w') !! ("wrong-bucket-name", key)
     = Some scenario_A_body
  /\ s3.objects (create.uploader w')
       !! (create.INPUT_S3_BUCKET_NAME w, key)
     = s3.objects (create.uploader w)
         !! (create.INPUT_S3_BUCKET_NAME w, key).
Proof.
  apply (injection_succeeds_if_wrong_bucket_accepts scenario.request
           (more_scenario.go_on more_scenario.open_store 1));
    [reflexivity | reflexivity | discriminate].
Defined.


(** X10. Two invocations in the same millisecond that are both accepted
    and go to the same bucket leave one object, not two: the second write
    replaces the first under the same key. *)
Theorem same_millisecond_overwrites req1 req2 w :
  let w1 := snd (create.handler req1 w) in
  create.StatusCode (fst (fst (create.handler req1 w))) = 200 ->
  create.StatusCode (fst (fst (create.handler req2 w1))) = 200 ->
  (create_obs.draw w =? 1) = (create_obs.draw w1 =? 1) ->
  s3.objects (create.uploader (snd (create.handler req2 w1)))
  = s3.objects (create.uploader w1).
Proof.
  cbv zeta. rewrite handler_run.
  destruct (s3.put _ (create.uploader w)) as [e1 u1] eqn:Hput1.
  cbn [fst snd]. rewrite handler_run.
  match goal with
  | |- context [s3.put ?i ?u] => destruct (s3.put i u) as [e2 u2] eqn:Hput2
  end.
  cbn [fst snd create.StatusCode create_obs.after_store create.uploader].
  destruct e1 as [e1|]; [cbn; discriminate|].
  destruct e2 as [e2|]; [cbn; discriminate|].
  intros _ _ Hsame.
  pose proof (put_accepted _ _ _ _ _ Hput1 eq_refl eq_refl) as H1.
  pose proof (put_accepted _ _ _ _ _ Hput2 eq_refl eq_refl) as H2.
  cbn [create.uploader create_obs.after_store] in H2.
  rewrite H2, H1.
  unfold create_obs.request.
  cbn [s3.Body create.INPUT_S3_BUCKET_NAME create.clock
       create_obs.after_store].
  rewrite <- Hsame. apply insert_insert_eq.
Qed.

Lemma same_millisecond_overwrites_witness :
  let w1 := snd (create.handler scenario.request (scenario.go 7)) in
  s3.objects
    (create.uploader (snd (create.handler more_scenario.bare_request w1)))
  = s3.objects (create.uploader w1).
Proof.
  apply (same_millisecond_overwrites scenario.request
           more_scenario.bare_request (scenario.go 7));
    reflexivity.
Defined.

(** X11. An invocation changes the store at one position at most: every
    bucket and key keeps its content, except that a 200 response has put
    the payload under the timestamp key, in the configured bucket or in
    [wrong-bucket-name] (Go), in the bucket named by the environment
    (Java). *)
Theorem store_changes_at_one_position_at_most :
  (forall req w b k,
     let '(resp, _, w') := create.handler req w in
     s3.objects (create.uploader w') !! (b, k)
     = s3.objects (create.uploader w) !! (b, k)
     \/ (create.StatusCode resp = 200
         /\ k = strconv.FormatInt (create.clock w)
         /\ (b = create.INPUT_S3_BUCKET_NAME w \/ b = "wrong-bucket-name")
         /\ s3.objects (create.uploader w') !! (b, k) = Some scenario_A_body))
  /\
  (forall input context w b k,
     let '(resp, w') := CreateHandler.handleRequest input context w in
     s3.objects (CreateHandler.s3Client w') !! (b, k)
     = s3.objects (CreateHandler.s3Client w) !! (b, k)
     \/ (CreateHandler.statusCode resp = 200
         /\ k = strconv.FormatInt (CreateHandler.currentTimeMillis w)
         /\ CreateHandler.environment w !! "INPUT_S3_BUCKET_NAME" = Some b
         /\ s3.objects (CreateHandler.s3Client w') !! (b, k)
            = Some scenario_A_body)).
Proof.
  split.
  - intros req w b k. rewrite handler_run.
    unfold s3.put.
    destruct (s3.respond (create.uploader w) _) as [e|]; [by left|].
    cbn [s3.Bucket s3.Key s3.Body create_obs.request create_obs.after_store
         create.uploader create.StatusCode s3.objects bool_decide
         decide_rel].
    set (b0 := if create_obs.draw w =? 1 then "wrong-bucket-name"
               else create.INPUT_S3_BUCKET_NAME w).
    destruct (decide ((b0, strconv.FormatInt (create.clock w)) = (b, k)))
      as [[= Hb Hk] | Hne].
    + right. rewrite <- Hb, <- Hk, lookup_insert_eq.
      split; [reflexivity|]. split; [reflexivity|].
      split; [|by rewrite go_payload].
      subst b0. destruct (create_obs.draw w =? 1); auto.
    + left. by rewrite lookup_insert_ne.
  - intros input context w b k. rewrite handleRequest_run.
    unfold s3.put.
    destruct (s3.respond (CreateHandler.s3Client w) _) as [e|]; [by left|].
    cbn [s3.Bucket s3.Key s3.Body java_obs.request CreateHandler.s3Client].
    destruct (CreateHandler.environment w !! "INPUT_S3_BUCKET_NAME")
      as [b0|] eqn:Hb0; [|by left].
    cbn [s3.objects CreateHandler.s3Client CreateHandler.statusCode
         CreateHandler.createResponse].
    destruct (decide
                ((b0, strconv.FormatInt (CreateHandler.currentTimeMillis w))
                 = (b, k))) as [[= Hb Hk] | Hne].
    + right. rewrite <- Hb, <- Hk, lookup_insert_eq.
      split; [reflexivity|]. split; [reflexivity|].
      split; [reflexivity|]. by rewrite java_payload.
    + left. by rewrite lookup_insert_ne.
Qed.

(** X12. The handler passes on whatever bytes the marshaller returns:
    when the marshaller gives [bytes] without error and the answer is 200,
    the body of the response and the object stored under the timestamp key
    are both exactly [bytes]. *)
Theorem response_body_is_the_stored_object Marshal req w bytes :
  Marshal create_obs.body0 = (bytes, None) ->
  create.StatusCode (fst (fst (create.handler_with Marshal req w))) = 200 ->
  let '(resp, _, w') := create.handler_with Marshal req w in
  create.Body resp = bytes
  /\ exists b,
       issued (create.calls w) (create.calls w')
       = [ ({| s3.Bucket := Some b;
               s3.Key := Some (strconv.FormatInt (create.clock w));
               s3.Body := bytes |}, None) ]
       /\ s3.objects (create.uploader w')
            !! (b, strconv.FormatInt (create.clock w))
          = Some bytes.
Proof.
  intros HM. rewrite handler_with_run, HM.
  destruct (s3.put _ (create.uploader w)) as [[e|] u] eqn:Hput;
    [cbn; discriminate|].
  cbn [fst create.StatusCode create.Body create_obs.after_store create.calls
       create.uploader].
  intros _. rewrite issued_app. split; [reflexivity|].
  eexists. split; [reflexivity|].
  rewrite (put_accepted _ _ _ _ _ Hput eq_refl eq_refl).
  apply lookup_insert_eq.
Qed.

Lemma response_body_is_the_stored_object_witness :
  let '(resp, _, w') :=
    create.handler_with more_scenario.other_Marshal scenario.request
      (scenario.go 7) in
  create.Body resp = "item=test"
  /\ exists b,
       issued (create.calls (scenario.go 7)) (create.calls w')
       = [ ({| s3.Bucket := Some b;
               s3.Key :=
                 Some (strconv.FormatInt (create.clock (scenario.go 7)));
               s3.Body := "item=test" |}, None) ]
       /\ s3.objects (create.uploader w')
            !! (b, strconv.FormatInt (create.clock (scenario.go 7)))
          = Some "item=test".
Proof.
  apply (response_body_is_the_stored_object more_scenario.other_Marshal
           scenario.request (scenario.go 7) "item=test");
    reflexivity.
Defined.

Lemma serve_cons now req rest w :
  create_run.serve ((now, req) :: rest) w =
  let '(r, w1) := create.handler req (create_run.with_clock now w) in
  let '(rs, w2) := create_run.serve rest w1 in
  (r :: rs, w2).
Proof. reflexivity. Qed.

Lemma uploads_app (a b : list Call) :
  uploads (a ++ b) = (uploads a ++ uploads b)%list.
Proof. unfold uploads. apply omap_app. Qed.

Lemma draws_app (a b : list Call) : draws (a ++ b) = (draws a ++ draws b)%list.
Proof. unfold draws. apply omap_app. Qed.

(** The status a response carries for the outcome of a write. *)
Lemma serve_facts events :
  forall w,
    let '(rs, w') := create_run.serve events w in
    let n := length events in
    exists new_calls new_spans,
      create.calls w' = (create.calls w ++ new_calls)%list
      /\ create.spans w' = (create.spans w ++ new_spans)%list
      /\ length new_spans = (2 * n)%nat
      /\ length rs = n
      /\ Forall (fun r => snd r = None) rs
      /\ rand.source (create.randomizer w') = rand.source (create.randomizer w)
      /\ rand.consumed (create.randomizer w')
         = (rand.consumed (create.randomizer w) + n)%nat
      /\ create.INPUT_S3_BUCKET_NAME w' = create.INPUT_S3_BUCKET_NAME w
      /\ draws new_calls =
         map (fun i => rand.source (create.randomizer w) i mod 15)
             (seq (rand.consumed (create.randomizer w)) n)
      /\ map (fun p => s3.Key (fst p)) (uploads new_calls) =
         map (fun ev => Some (strconv.FormatInt (fst ev))) events
      /\ map (fun p => if snd p is Some _ then 500 else 200)
             (uploads new_calls) =
         map (fun r => create.StatusCode (fst r)) rs
      /\ Forall (fun p =>
                   s3.Bucket (fst p) = Some (create.INPUT_S3_BUCKET_NAME w)
                   \/ s3.Bucket (fst p) = Some "wrong-bucket-name")
                (uploads new_calls).
Proof.
  induction events as [|[now req] rest IH]; intros w.
  - cbn. exists [], []. rewrite !app_nil_r.
    repeat split; try reflexivity; try lia; apply Forall_nil_2.
  - rewrite serve_cons, handler_run.
    destruct (s3.put _ (create.uploader (create_run.with_clock now w)))
      as [err u].
    match goal with
    | |- context [create_run.serve rest ?w1] =>
        specialize (IH w1); destruct (create_run.serve rest w1) as [rs w2]
    end.
    cbv zeta in IH.
    destruct IH as (nc & ns & Hc & Hs & Hns & Hrs & Hnil & Hsrc & Hcons
                    & Hin & Hdr & Hkeys & Hst & Hb).
    cbn [create_obs.after_store create.calls create.spans create.randomizer
         create.INPUT_S3_BUCKET_NAME rand.Intn snd rand.source rand.consumed
         create_run.with_clock] in *.
    eexists ([_; _; _] ++ nc)%list, ([_; _] ++ ns)%list.
    split; [rewrite Hc, <- app_assoc; reflexivity|].
    split; [rewrite Hs, <- app_assoc; reflexivity|].
    split; [rewrite length_app; cbn [length]; lia|].
    split; [cbn [length]; lia|].
    split; [by constructor|].
    split; [exact Hsrc|].
    split; [rewrite Hcons; cbn [length]; lia|].
    split; [exact Hin|].
    rewrite draws_app, !uploads_app, !map_app, Hdr, Hkeys, Hst.
    split; [reflexivity|]. split; [reflexivity|].
    split; [by destruct err|].
    apply Forall_app. split; [|exact Hb].
    apply Forall_cons_2; [|apply Forall_nil_2].
    cbn [fst s3.Bucket create_obs.request create.INPUT_S3_BUCKET_NAME
         create_run.with_clock].
    destruct (create_obs.draw _ =? 1); auto.
Qed.

(** X13. Over the invocations of one process the injector follows the
    generator: [n] invocations make [n] draws, the numbers drawn are the
    next [n] values of the source modulo 15, in order, and the generator
    has advanced by [n]. *)
Theorem injection_sequence_follows_the_source events w :
  let w' := snd (create_run.serve events w) in
  let n := length events in
  draws (drop (length (create.calls w)) (create.calls w')) =
    map (fun i => rand.source (create.randomizer w) i mod 15)
        (seq (rand.consumed (create.randomizer w)) n)
  /\ rand.consumed (create.randomizer w')
     = (rand.consumed (create.randomizer w) + n)%nat
  /\ rand.source (create.randomizer w') = rand.source (create.randomizer w).
Proof.
  cbv zeta. pose proof (serve_facts events w) as H.
  destruct (create_run.serve events w) as [rs w'].
  cbv zeta in H.
  destruct H as (nc & ns & Hc & _ & _ & _ & _ & Hsrc & Hcons & _ & Hdr & _).
  cbn [snd]. rewrite Hc, drop_length_app. auto.
Qed.

(** X14. Over the invocations of one process there is one write and one
    response per event, in the order of the events: the key of the i-th
    write is the decimal clock reading of the i-th event, the i-th
    response is 200 if that write was accepted and 500 if not, and every
    error result is nil. *)
Theorem serve_answers_in_order events w :
  let '(rs, w') := create_run.serve events w in
  let written :=
    uploads (drop (length (create.calls w)) (create.calls w')) in
  length rs = length events
  /\ map (fun p => s3.Key (fst p)) written =
     map (fun ev => Some (strconv.FormatInt (fst ev))) events
  /\ map (fun r => create.StatusCode (fst r)) rs =
     map (fun p => if snd p is Some _ then 500 else 200) written
  /\ Forall (fun r => snd r = None) rs.
Proof.
  pose proof (serve_facts events w) as H.
  destruct (create_run.serve events w) as [rs w'].
  cbv zeta in H.
  destruct H as (nc & ns & Hc & _ & _ & Hrs & Hnil & _ & _ & _ & _ & Hk
                 & Hst & _).
  cbv zeta. rewrite Hc, drop_length_app. auto.
Qed.



(* ===================================================================== *)
(** ** More on CreateHandler.java and CustomObject.java *)
(* ===================================================================== *)

(** X16. The Java handler reads the bucket name from the environment on
    every invocation: what an earlier invocation left in the static field
    has no influence on the response, the calls or the store, and after
    the invocation the field holds what the environment says. *)
Theorem java_bucket_is_read_on_every_invocation input context w stale :
  let '(r1, w1) :=
    CreateHandler.handleRequest input context (java_more.with_static stale w)
  in
  let '(r2, w2) := CreateHandler.handleRequest input context w in
  r1 = r2
  /\ w1 = w2
  /\ CreateHandler.INPUT_S3_BUCKET_NAME w2
     = CreateHandler.environment w !! "INPUT_S3_BUCKET_NAME".
Proof.
  rewrite !handleRequest_run.
  change (java_obs.request (java_more.with_static stale w))
    with (java_obs.request w).
  cbn [java_more.with_static CreateHandler.s3Client CreateHandler.environment
       CreateHandler.currentTimeMillis CreateHandler.calls].
  by destruct (s3.put _ (CreateHandler.s3Client w)).
Qed.



(** X18. Every response of the Java handler, the 500 with an error text
    as body included, carries the one header
    [Content-Type: application/json], and its status is 200 or 500. *)
Theorem java_response_is_always_labelled_json input context w :
  let resp := fst (CreateHandler.handleRequest input context w) in
  CreateHandler.headers resp = {[ "Content-Type" := "application/json" ]}
  /\ (forall name value,
        CreateHandler.headers resp !! name = Some value ->
        name = "Content-Type" /\ value = "application/json")
  /\ (CreateHandler.statusCode resp = 200
      \/ CreateHandler.statusCode resp = 500).
Proof.
  cbv zeta. rewrite handleRequest_run.
  assert (forall name value,
            ({[ "Content-Type" := "application/json" ]} : gmap string string)
              !! name = Some value ->
            name = "Content-Type" /\ value = "application/json") as Hone.
  { intros name value Hl. apply lookup_singleton_Some in Hl. by destruct Hl. }
  destruct (s3.put _ (CreateHandler.s3Client w)) as [[e|] s];
    cbn [fst CreateHandler.headers CreateHandler.statusCode
         CreateHandler.createResponse];
    (split; [reflexivity|]); (split; [exact Hone|]); cbn; auto.
Qed.

(** X19. On the path without injection the two handlers are
    interchangeable: with the same bucket configured and the same clock
    reading, the Java handler sends the very request the Go handler
    sends (bucket, key and body). *)
Theorem java_and_go_send_the_same_request req gw jw :
  create_obs.draw gw <> 1 ->
  CreateHandler.environment jw !! "INPUT_S3_BUCKET_NAME"
  = Some (create.INPUT_S3_BUCKET_NAME gw) ->
  CreateHandler.currentTimeMillis jw = create.clock gw ->
  exists e1 e2,
    issued (create.calls gw)
      (create.calls (snd (create.handler req gw)))
    = [(java_obs.request jw, e1)]
    /\ issued (CreateHandler.calls jw)
         (CreateHandler.calls (snd (CreateHandler.handleRequest tt tt jw)))
       = [(java_obs.request jw, e2)].
Proof.
  intros Hd Hb Ht. rewrite handler_run, handleRequest_run.
  assert (create_obs.request create_obs.payload gw = java_obs.request jw)
    as Heq.
  { unfold create_obs.request, java_obs.request. rewrite Hb, Ht.
    destruct (Z.eqb_spec (create_obs.draw gw) 1); [contradiction|].
    by rewrite go_payload, java_payload. }
  rewrite Heq.
  destruct (s3.put _ (create.uploader gw)) as [e1 u1].
  destruct (s3.put _ (CreateHandler.s3Client jw)) as [e2 u2].
  cbn [snd create_obs.after_store create.calls CreateHandler.calls].
  rewrite !issued_app, Heq. by do 2 eexists.
Qed.

Lemma java_and_go_send_the_same_request_witness :
  exists e1 e2,
    issued (create.calls (scenario.go 7))
      (create.calls (snd (create.handler scenario.request (scenario.go 7))))
    = [(java_obs.request (scenario.java scenario.store (Some "otel-input")),
        e1)]
    /\ issued
         (CreateHandler.calls
            (scenario.java scenario.store (Some "otel-input")))
         (CreateHandler.calls
            (snd (CreateHandler.handleRequest tt tt
                    (scenario.java scenario.store (Some "otel-input")))))
       = [(java_obs.request (scenario.java scenario.store (Some "otel-input")),
           e2)].
Proof.
  apply (java_and_go_send_the_same_request scenario.request (scenario.go 7)
           (scenario.java scenario.store (Some "otel-input")));
    [discriminate | reflexivity | reflexivity].
Defined.

(* ===================================================================== *)
(** ** More on the JSON form of the record *)
(* ===================================================================== *)

(** X21. Records with valid UTF-8 items that differ in a field have
    different encodings: [Marshal] is injective on them. *)
Theorem Marshal_is_injective (o1 o2 : CustomObject) :
  utf8.ValidString (Item o1) = true ->
  utf8.ValidString (Item o2) = true ->
  fst (json.Marshal o1) = fst (json.Marshal o2) ->
  o1 = o2.
Proof.
  intros H1 H2 Heq. cbn [json.Marshal fst] in Heq.
  pose proof (Unmarshal_encode o1 roundtrip.zero H1) as E1.
  rewrite Heq, (Unmarshal_encode o2 roundtrip.zero H2) in E1.
  by injection E1.
Qed.

Lemma Marshal_is_injective_witness : roundtrip.mixed = roundtrip.mixed.
Proof.
  apply (Marshal_is_injective roundtrip.mixed roundtrip.mixed); reflexivity.
Defined.

Section gson_facts.
Import json.

(** One iteration of the decoder on what Gson writes for an ASCII
    character. *)
Lemma unquote_gson_char c fd X :
  byte_val c < 0x80 ->
  unquote_loop (S fd)
    (match gson.replacement (byte_val c) with
     | Some r => r ++ X
     | None => String c X
     end) =
  prepend (String c EmptyString) (unquote_loop fd X).
Proof.
  destruct c as [[] [] [] [] [] [] [] []]; intros H1;
    try (exfalso; vm_compute in H1; discriminate H1);
    reflexivity.
Qed.

Lemma gson_replacement_length b r :
  gson.replacement b = Some r -> (1 <= String.length r)%nat.
Proof.
  unfold gson.replacement.
  repeat match goal with
    | |- context [if ?c then _ else _] => destruct c
    end;
    intros [= <-]; rewrite str_length_app; cbn [String.length bslash]; lia.
Qed.

Lemma gson_string_body_length s :
  (String.length s <= String.length (gson.string_body s))%nat.
Proof.
  induction s as [|c s IH]; [reflexivity|].
  cbn [gson.string_body].
  destruct (gson.replacement (byte_val c)) as [r|] eqn:Hr.
  - rewrite str_length_app. pose proof (gson_replacement_length _ _ Hr).
    cbn [String.length]. lia.
  - cbn [String.length]. lia.
Qed.

Lemma unquote_gson_string_body s :
  forall fd rest,
    is_ascii s = true ->
    (String.length s < fd)%nat ->
    unquote_loop fd (gson.string_body s ++ dquote ++ rest) = Some (s, rest).
Proof.
  induction s as [|c s IH]; intros fd rest Hascii Hfd.
  - destruct fd as [|fd]; [cbn [String.length] in Hfd; lia|].
    apply unquote_close.
  - cbn [is_ascii] in Hascii. apply andb_true_iff in Hascii.
    destruct Hascii as [Hc Hs]. apply Z.ltb_lt in Hc.
    cbn [String.length] in Hfd. destruct fd as [|fd]; [lia|].
    pose proof (unquote_gson_char c fd
                  (gson.string_body s ++ dquote ++ rest) Hc) as Hstep.
    cbn [gson.string_body].
    destruct (gson.replacement (byte_val c)) as [r|].
    + rewrite str_app_assoc, Hstep, IH by (assumption || lia). reflexivity.
    + rewrite str_cons_app, Hstep, IH by (assumption || lia). reflexivity.
Qed.

Lemma parse_value_gson_string s rest :
  is_ascii s = true ->
  parse_value ((dquote ++ gson.string_body s ++ dquote) ++ rest)
  = Some (VString s, rest).
Proof.
  intros Hascii. rewrite !str_app_assoc.
  change (dquote ++ gson.string_body s ++ dquote ++ rest)
    with (String "034"%char (gson.string_body s ++ dquote ++ rest)).
  unfold parse_value.
  change (byte_val "034"%char =? ch "034") with true. cbv iota.
  rewrite unquote_gson_string_body; [reflexivity|assumption|].
  pose proof (gson_string_body_length s).
  cbn [String.length]. rewrite str_length_app. lia.
Qed.

End gson_facts.

(** X22. What the Java handler's Gson writes, Go's [Unmarshal] reads: for
    every Java object with an ASCII item, decoding [toJson] of it into a
    Go struct holding anything gives the struct with the same item and
    flags. *)
Theorem go_reads_what_gson_writes (o : daos.CustomObject) (v : CustomObject) :
  is_ascii (daos.getItem o) = true ->
  json.Unmarshal (gson.toJson o) v = inl (of_daos o).
Proof.
  intros Hascii. unfold json.Unmarshal, gson.toJson.
  change (json.skip_space ("{" ++ ?x)) with ("{" ++ x).
  rewrite strip_prefix_app.
  set (rest3 := "isChecked" ++ dquote ++ ":"
                  ++ json.appendBool (daos.getIsChecked o) ++ "}").
  set (rest2 := "isUpdated" ++ dquote ++ ":"
                  ++ json.appendBool (daos.getIsUpdated o)
                  ++ "," ++ dquote ++ rest3).
  set (val1 := dquote ++ gson.string_body (daos.getItem o) ++ dquote).
  replace (dquote ++ "item" ++ dquote ++ ":" ++ dquote
             ++ gson.string_body (daos.getItem o) ++ dquote
             ++ "," ++ dquote ++ rest2)
    with (dquote ++ "item" ++ dquote ++ ":" ++ val1 ++ "," ++ dquote ++ rest2)
    by (subst val1; by rewrite !str_app_assoc).
  set (s2 := dquote ++ "item" ++ dquote ++ ":" ++ val1
               ++ "," ++ dquote ++ rest2).
  change (json.skip_space s2) with s2.
  change (json.strip_prefix "}" s2) with (@None string). cbv iota.
  assert (exists f, String.length s2 = S (S (S f))) as [f ->].
  { subst s2. rewrite !str_length_app. cbn [String.length dquote].
    eexists. reflexivity. }
  subst s2.
  rewrite (members_more _ "item" val1 (json.VString (daos.getItem o)) rest2 v
             {| Item := daos.getItem o; IsUpdated := IsUpdated v;
                IsChecked := IsChecked v |});
    [| reflexivity | reflexivity | reflexivity
     | subst val1; rewrite <- (parse_value_gson_string _ _ Hascii);
       by rewrite !str_app_assoc
     | reflexivity ].
  subst rest2.
  rewrite (members_more _ "isUpdated" _ (json.VBool (daos.getIsUpdated o))
             rest3 _
             {| Item := daos.getItem o; IsUpdated := daos.getIsUpdated o;
                IsChecked := IsChecked v |});
    [| reflexivity | reflexivity | apply skip_space_bool
     | apply parse_value_bool | reflexivity ].
  subst rest3.
  rewrite (members_last _ "isChecked" _ (json.VBool (daos.getIsChecked o)) _
             (of_daos o));
    [| reflexivity | reflexivity | apply skip_space_bool
     | apply parse_value_bool | reflexivity ].
  reflexivity.
Qed.

Lemma go_reads_what_gson_writes_witness :
  json.Unmarshal
    (gson.toJson (daos.new ("a=b<c'd" ++ dquote ++ bslash) true false))
    roundtrip.zero
  = inl (of_daos (daos.new ("a=b<c'd" ++ dquote ++ bslash) true false)).
Proof.
  apply (go_reads_what_gson_writes
           (daos.new ("a=b<c'd" ++ dquote ++ bslash) true false)
           roundtrip.zero).
  reflexivity.
Defined.
